(** * Kenyan phone number fields: validators and normalizers

    A shallow embedding of [kenyan_phone_fields.py]: the three validators
    ([validate_safaricom_number], [validate_airtel_number],
    [validate_kenyan_number]) and the two conversion hooks
    ([to_python], [get_prep_value]) of the three field classes.

    Data model.  A Python [str] is embedded as a Stdlib [string], that is a
    sequence of characters whose code points are below 256.  On that range the
    class [\d] of the [re] module is exactly ['0'..'9'] and [len] is
    [String.length].  A value handed to a validator or to a hook is either
    [None] or a [str]: it is embedded as [option string].

    The generic validator is the one place where characters beyond 255
    matter, since [\d] matches the decimal digits of every script.  Module
    [Uni] embeds it a second time, on sequences of code points, with the
    decimal digits of the Unicode database as a parameter; the two
    embeddings agree on the strings the first one can hold
    ([uni_validate_of_string]). *)

From Stdlib Require Import Strings.String Strings.Ascii NArith.
From Stdlib Require Import Lists.List Bool.Bool Arith.PeanoNat Lia.
Import ListNotations.

Local Open Scope string_scope.
Local Open Scope bool_scope.

(** ** Python primitives used by the source *)

Module Py.

(** A value reaching the field code: [None] or a [str]. *)
Definition value := option string.

(** Truth value of [value] in [if not value]: [None] and [''] are false. *)
Definition truthy (v : value) : bool :=
  match v with
  | Some (String _ _) => true
  | _ => false
  end.

(** [s.startswith(p)]. *)
Fixpoint startswith (s p : string) {struct p} : bool :=
  match p with
  | EmptyString => true
  | String c p' =>
      match s with
      | EmptyString => false
      | String d s' => Ascii.eqb d c && startswith s' p'
      end
  end.

(** [s[n:]] for a non-negative literal [n]; beyond the end it is ['']. *)
Fixpoint slice_from (n : nat) (s : string) : string :=
  match n with
  | 0 => s
  | S m =>
      match s with
      | EmptyString => EmptyString
      | String _ s' => slice_from m s'
      end
  end.

(** [any(f(x) for x in xs)]. *)
Definition any {A : Type} (f : A -> bool) (xs : list A) : bool :=
  existsb f xs.

(** The line feed character. *)
Definition LF : ascii := "010"%char.

(** Outcome of a validator: it returns (nothing), or raises
    [ValidationError(message)]. *)
Inductive outcome : Type :=
| Returns
| Raises (message : string).

End Py.

(** ** The fragment of [re] used by [KENYAN_MOBILE_REGEX] *)

Module Re.

Inductive regex : Type :=
| Bol                         (* ^ *)
| Eol                         (* $ *)
| Lit (c : ascii)             (* a literal character *)
| Digit                       (* \d *)
| Cat (r1 r2 : regex)         (* r1 r2 *)
| Alt (r1 r2 : regex)         (* r1|r2 *)
| Opt (r : regex)             (* r? *)
| Rep (n : nat) (r : regex).  (* r{n} *)

(** [\d] on code points below 256. *)
Definition is_digit (c : ascii) : bool :=
  let n := nat_of_ascii c in Nat.leb 48 n && Nat.leb n 57.

(** [$] without the MULTILINE flag: at the end of the string, or just
    before a line feed that is the last character. *)
Definition at_end (s : string) : bool :=
  match s with
  | EmptyString => true
  | String c EmptyString => Ascii.eqb c Py.LF
  | _ => false
  end.

(** Backtracking matcher.  [pos] is the number of characters consumed so
    far, [s] the rest of the subject, [k] what remains to be matched. *)
Fixpoint run (r : regex) (pos : nat) (s : string)
         (k : nat -> string -> bool) {struct r} : bool :=
  match r with
  | Bol => Nat.eqb pos 0 && k pos s
  | Eol => at_end s && k pos s
  | Lit c =>
      match s with
      | EmptyString => false
      | String d s' => Ascii.eqb d c && k (S pos) s'
      end
  | Digit =>
      match s with
      | EmptyString => false
      | String d s' => is_digit d && k (S pos) s'
      end
  | Cat r1 r2 => run r1 pos s (fun pos' s' => run r2 pos' s' k)
  | Alt r1 r2 => run r1 pos s k || run r2 pos s k
  | Opt r1 => run r1 pos s k || k pos s
  | Rep n r1 =>
      (fix rep (m : nat) (pos0 : nat) (s0 : string) {struct m} : bool :=
         match m with
         | 0 => k pos0 s0
         | S m' => run r1 pos0 s0 (rep m')
         end) n pos s
  end.

(** [pattern.match(s)] as a truth value: some match starts at position 0. *)
Definition matches (r : regex) (s : string) : bool :=
  run r 0 s (fun _ _ => true).

End Re.

(** ** 1. SafaricomPhoneField *)

Definition safaricom_prefixes : list string :=
  [ "0700"; "0701"; "0702"; "0703"; "0704"; "0705"; "0706"; "0707"; "0708"; "0709";
    "0710"; "0711"; "0712"; "0713"; "0714"; "0715"; "0716"; "0717"; "0718"; "0719";
    "0720"; "0721"; "0722"; "0723"; "0724"; "0725"; "0726"; "0727"; "0728"; "0729";
    "0740"; "0741"; "0742"; "0743"; "0745"; "0746"; "0748";
    "0757"; "0758"; "0759";
    "0768"; "0769";
    "0790"; "0791"; "0792"; "0793"; "0794"; "0795"; "0796"; "0797"; "0798"; "0799";
    "0110"; "0111"; "0112"; "0113"; "0114"; "0115" ].

(** The value the carrier validators call [normalized]: one leading marker
    removed, [+254] tried first, then [254], then [0]. *)
Definition normalized_of (value : string) : string :=
  let normalized := value in
  if Py.startswith normalized "+254" then Py.slice_from 4 normalized
  else if Py.startswith normalized "254" then Py.slice_from 3 normalized
  else if Py.startswith normalized "0" then Py.slice_from 1 normalized
  else normalized.

(** The prefix test of the carrier validators, on [normalized]. *)
Definition prefix_ok (prefixes : list string) (normalized : string) : bool :=
  Py.any (fun prefix => Py.startswith normalized (Py.slice_from 1 prefix)) prefixes.

(** In the three validators [if not value: return] is the last branch of the
    match: [None] and [''] return at once. *)
Definition validate_safaricom_number (value : Py.value) : Py.outcome :=
  match value with
  | Some (String c v) =>
      let value := String c v in
      let normalized := normalized_of value in
      if negb (prefix_ok safaricom_prefixes normalized) then
        Py.Raises (value ++ " is not a valid Safaricom prefix.")
      else if negb (Nat.eqb (String.length normalized) 9) then
        Py.Raises (value ++ " must be 9 digits long after removing country code.")
      else Py.Returns
  | _ => Py.Returns
  end.

(** The base field type is the framework's [CharField], which is not part of
    this repository.  Its [to_python] returns a [str] or [None] as it is (the
    specification: the base conversion coerces non-string inputs to string
    and leaves the rest unchanged).  Its [get_prep_value] returns
    [self.to_python(value)]: the call is dispatched on the instance, so
    [self_to_python] stands for the [to_python] of the field class at hand,
    and the value that reaches the statements of a field's own
    [get_prep_value] has been through that field's [to_python]. *)
Module CharField.
Definition to_python (value : Py.value) : Py.value := value.
Definition get_prep_value (self_to_python : Py.value -> Py.value)
           (value : Py.value) : Py.value :=
  self_to_python value.
End CharField.

Module SafaricomPhoneField.

Definition max_length : nat := 12.

Definition to_python (value : Py.value) : Py.value :=
  let value := CharField.to_python value in
  match value with
  | Some (String c v) =>
      let value := String c v in
      if Py.startswith value "+254" then Some ("254" ++ Py.slice_from 4 value)
      else if Py.startswith value "0" then Some ("254" ++ Py.slice_from 1 value)
      else if negb (Py.startswith value "254") then Some ("254" ++ value)
      else Some value
  | _ => value
  end.

Definition get_prep_value (value : Py.value) : Py.value :=
  let value := CharField.get_prep_value to_python value in
  match value with
  | Some (String c v) =>
      let value := String c v in
      if Py.startswith value "+254" then Some ("254" ++ Py.slice_from 4 value)
      else if Py.startswith value "0" then Some ("254" ++ Py.slice_from 1 value)
      else if negb (Py.startswith value "254") then Some ("254" ++ value)
      else Some value
  | _ => value
  end.

End SafaricomPhoneField.

(** ** 2. AirtelPhoneField *)

Definition airtel_prefixes : list string :=
  [ "0730"; "0731"; "0732"; "0733"; "0734"; "0735"; "0736"; "0737"; "0738"; "0739";
    "0750"; "0751"; "0752"; "0753"; "0754"; "0755"; "0756";
    "0780"; "0781"; "0782"; "0783"; "0784"; "0785"; "0786"; "0787"; "0788"; "0789";
    "0100"; "0101"; "0102"; "0103"; "0104"; "0105"; "0106"; "0107"; "0108"; "0109" ].

Definition validate_airtel_number (value : Py.value) : Py.outcome :=
  match value with
  | Some (String c v) =>
      let value := String c v in
      let normalized := normalized_of value in
      if negb (prefix_ok airtel_prefixes normalized) then
        Py.Raises (value ++ " is not a valid Airtel Kenya prefix.")
      else if negb (Nat.eqb (String.length normalized) 9) then
        Py.Raises (value ++ " must be 9 digits long after removing country code.")
      else Py.Returns
  | _ => Py.Returns
  end.

Module AirtelPhoneField.

Definition max_length : nat := 12.

Definition to_python (value : Py.value) : Py.value :=
  let value := CharField.to_python value in
  match value with
  | Some (String c v) =>
      let value := String c v in
      if Py.startswith value "+254" then Some ("254" ++ Py.slice_from 4 value)
      else if Py.startswith value "0" then Some ("254" ++ Py.slice_from 1 value)
      else if negb (Py.startswith value "254") then Some ("254" ++ value)
      else Some value
  | _ => value
  end.

Definition get_prep_value (value : Py.value) : Py.value :=
  let value := CharField.get_prep_value to_python value in
  match value with
  | Some (String c v) =>
      let value := String c v in
      if Py.startswith value "+254" then Some ("254" ++ Py.slice_from 4 value)
      else if Py.startswith value "0" then Some ("254" ++ Py.slice_from 1 value)
      else if negb (Py.startswith value "254") then Some ("254" ++ value)
      else Some value
  | _ => value
  end.

End AirtelPhoneField.

(** ** 3. KenyanPhoneField *)

(** [^(?:\+?254|0)(7\d{8}|1\d{8})$]; groups only delimit, so they are the
    nesting of the term. *)
Definition KENYAN_MOBILE_REGEX : Re.regex :=
  Re.Cat Re.Bol
    (Re.Cat
       (Re.Alt
          (Re.Cat (Re.Opt (Re.Lit "+"))
             (Re.Cat (Re.Lit "2") (Re.Cat (Re.Lit "5") (Re.Lit "4"))))
          (Re.Lit "0"))
       (Re.Cat
          (Re.Alt
             (Re.Cat (Re.Lit "7") (Re.Rep 8 Re.Digit))
             (Re.Cat (Re.Lit "1") (Re.Rep 8 Re.Digit)))
          Re.Eol)).

Definition validate_kenyan_number (value : Py.value) : Py.outcome :=
  match value with
  | Some (String c v) =>
      let value := String c v in
      if negb (Re.matches KENYAN_MOBILE_REGEX value) then
        Py.Raises (value ++ " is not a valid Kenyan mobile number format.")
      else Py.Returns
  | _ => Py.Returns
  end.

Module KenyanPhoneField.

Definition max_length : nat := 13.

Definition to_python (value : Py.value) : Py.value :=
  let value := CharField.to_python value in
  match value with
  | Some (String c v) =>
      let value := String c v in
      let value := if Py.startswith value "+" then Py.slice_from 1 value else value in
      if Py.startswith value "254" then Some value
      else if Py.startswith value "0" then Some ("254" ++ Py.slice_from 1 value)
      else Some ("254" ++ value)
  | _ => value
  end.

Definition get_prep_value (value : Py.value) : Py.value :=
  let value := CharField.get_prep_value to_python value in
  match value with
  | Some (String c v) =>
      let value := String c v in
      if Py.startswith value "+254" then Some ("254" ++ Py.slice_from 4 value)
      else if Py.startswith value "0" then Some ("254" ++ Py.slice_from 1 value)
      else if negb (Py.startswith value "254") then Some ("254" ++ value)
      else Some value
  | _ => value
  end.

End KenyanPhoneField.

(** ** Shapes of strings the statements speak of *)

(** Every character is one of ['0'..'9']. *)
Fixpoint all_digits (s : string) : bool :=
  match s with
  | EmptyString => true
  | String c t => Re.is_digit c && all_digits t
  end.

(** A subscriber number: ['7'] or ['1'] followed by 8 digits. *)
Definition subscriber (b : string) : Prop :=
  exists c d, b = String c d /\ (c = "7"%char \/ c = "1"%char) /\
              String.length d = 8 /\ all_digits d = true.

(** The continuation [Re.matches] starts from. *)
Definition accept : nat -> string -> bool := fun _ _ => true.

(** The part of the pattern after the country marker: [(7\d{8}|1\d{8})$]. *)
Definition SUBSCRIBER : Re.regex :=
  Re.Cat
    (Re.Alt (Re.Cat (Re.Lit "7") (Re.Rep 8 Re.Digit))
            (Re.Cat (Re.Lit "1") (Re.Rep 8 Re.Digit)))
    Re.Eol.

(** What [(7\d{8}|1\d{8})$] lets through: a subscriber number, then the end
    of the string as [$] understands it. *)
Definition tail_ok (b : string) : Prop :=
  exists c d e, b = String c (d ++ e) /\ (c = "7"%char \/ c = "1"%char) /\
                String.length d = 8 /\ all_digits d = true /\ Re.at_end e = true.

(** The shape the pattern is written for: [254] with an optional [+] in
    front of it, or [0], then a subscriber number, and nothing else. *)
Definition kenyan_form (s : string) : Prop :=
  exists b, (s = "+254" ++ b \/ s = "254" ++ b \/ s = "0" ++ b) /\ subscriber b.

(** The shape in the words of the specification: an optional [+], then
    [254] or [0], then a subscriber number, and nothing else. *)
Definition spec_kenyan_form (s : string) : Prop :=
  exists plus marker b,
    s = plus ++ marker ++ b /\ (plus = EmptyString \/ plus = "+") /\
    (marker = "254" \/ marker = "0") /\ subscriber b.

(** [s.endswith('\n')]. *)
Fixpoint endswith_LF (s : string) : bool :=
  match s with
  | EmptyString => false
  | String c EmptyString => Ascii.eqb c Py.LF
  | String _ t => endswith_LF t
  end.

(** Every entry of a prefix table is ['0'] followed by three characters. *)
Definition table_shape (prefixes : list string) : bool :=
  forallb (fun p => Py.startswith p "0" && Nat.eqb (String.length p) 4) prefixes.

(** The rule of the carrier normalizers, case by case, for a normalizer
    [N] at the string [s]. *)
Definition follows_carrier_rule (N : Py.value -> Py.value) (s : string) : Prop :=
  (forall r, s = "+254" ++ r -> N (Some s) = Some ("254" ++ r)) /\
  (forall r, s = "0" ++ r -> N (Some s) = Some ("254" ++ r)) /\
  (forall r, s = "254" ++ r -> N (Some s) = Some s) /\
  ((forall r, s <> "+254" ++ r) -> (forall r, s <> "0" ++ r) ->
   (forall r, s <> "254" ++ r) -> N (Some s) = Some ("254" ++ s)).

(** [n] starts with the last three characters of some four-character
    entry of the table whose first character is ['0']. *)
Definition table_match (prefixes : list string) (n : string) : Prop :=
  exists p d t, In p prefixes /\ p = String "0" d /\ String.length d = 3 /\ n = d ++ t.

(** The two carrier validators share their text up to the table and the
    carrier's name in the first message. *)
Definition carrier_check (prefixes : list string) (carrier : string)
           (value : Py.value) : Py.outcome :=
  match value with
  | Some (String c v) =>
      let value := String c v in
      let normalized := normalized_of value in
      if negb (prefix_ok prefixes normalized) then
        Py.Raises (value ++ " is not a valid " ++ carrier ++ " prefix.")
      else if negb (Nat.eqb (String.length normalized) 9) then
        Py.Raises (value ++ " must be 9 digits long after removing country code.")
      else Py.Returns
  | _ => Py.Returns
  end.

(** The statements shared by the carrier normalizers: the text of
    [to_python] and of [get_prep_value] of the Safaricom and Airtel fields,
    and of [get_prep_value] of the generic field, after the call of the base
    hook. *)
Definition carrier_normalize (value : Py.value) : Py.value :=
  match value with
  | Some (String c v) =>
      let value := String c v in
      if Py.startswith value "+254" then Some ("254" ++ Py.slice_from 4 value)
      else if Py.startswith value "0" then Some ("254" ++ Py.slice_from 1 value)
      else if negb (Py.startswith value "254") then Some ("254" ++ value)
      else Some value
  | _ => value
  end.

(** Every entry's second character is ['7'] or ['1']. *)
Definition table_heads (prefixes : list string) : bool :=
  forallb (fun p => match p with
                    | String _ (String c _) => Ascii.eqb c "7" || Ascii.eqb c "1"
                    | _ => false
                    end) prefixes.

(** No entry of the first table is an entry of the second. *)
Definition tables_apart (ps qs : list string) : bool :=
  forallb (fun p => negb (existsb (String.eqb p) qs)) ps.

(** ** The generic validator on strings of code points *)

Module Uni.

Local Open Scope list_scope.

(** A [str] as the sequence of its code points. *)
Definition str := list N.

(** The code points of a string whose characters are below 256. *)
Fixpoint of_string (s : string) : str :=
  match s with
  | EmptyString => []
  | String c t => N_of_ascii c :: of_string t
  end.

(** Outcome of a validator on such strings. *)
Inductive outcome : Type :=
| Returns
| Raises (message : str).

(** The outcome of the embedding on [string], read on code points. *)
Definition of_outcome (o : Py.outcome) : outcome :=
  match o with
  | Py.Returns => Returns
  | Py.Raises m => Raises (of_string m)
  end.

(** The line feed. *)
Definition LF : N := 10%N.

(** ['0'..'9']: what every version of the Unicode database gives as the
    decimal digits below code point 256. *)
Definition ascii_digit (c : N) : bool := (48 <=? c)%N && (c <=? 57)%N.

(** The continuation [matches] starts from. *)
Definition accept : nat -> str -> bool := fun _ _ => true.

(** [$] without the MULTILINE flag. *)
Definition at_end (s : str) : bool :=
  match s with
  | [] => true
  | [c] => N.eqb c LF
  | _ => false
  end.

(** [s.endswith('\n')]. *)
Fixpoint endswith_LF (s : str) : bool :=
  match s with
  | [] => false
  | [c] => N.eqb c LF
  | _ :: t => endswith_LF t
  end.

Section Database.

(** [\d] in a [str] pattern compiled without [re.ASCII] matches the
    characters of category Nd (decimal digit) of the interpreter's Unicode
    database.  The database belongs to the interpreter, not to the
    repository: it is a parameter. *)
Variable Nd : N -> bool.

(** The matcher of [Re.run], on code points. *)
Fixpoint run (r : Re.regex) (pos : nat) (s : str)
         (k : nat -> str -> bool) {struct r} : bool :=
  match r with
  | Re.Bol => Nat.eqb pos 0 && k pos s
  | Re.Eol => at_end s && k pos s
  | Re.Lit c =>
      match s with
      | [] => false
      | d :: s' => N.eqb d (N_of_ascii c) && k (S pos) s'
      end
  | Re.Digit =>
      match s with
      | [] => false
      | d :: s' => Nd d && k (S pos) s'
      end
  | Re.Cat r1 r2 => run r1 pos s (fun pos' s' => run r2 pos' s' k)
  | Re.Alt r1 r2 => run r1 pos s k || run r2 pos s k
  | Re.Opt r1 => run r1 pos s k || k pos s
  | Re.Rep n r1 =>
      (fix rep (m : nat) (pos0 : nat) (s0 : str) {struct m} : bool :=
         match m with
         | 0 => k pos0 s0
         | S m' => run r1 pos0 s0 (rep m')
         end) n pos s
  end.

Definition matches (r : Re.regex) (s : str) : bool :=
  run r 0 s (fun _ _ => true).

Definition validate_kenyan_number (value : option str) : outcome :=
  match value with
  | Some (c :: v) =>
      let value := c :: v in
      if negb (matches KENYAN_MOBILE_REGEX value) then
        Raises (value ++ of_string " is not a valid Kenyan mobile number format.")
      else Returns
  | _ => Returns
  end.

(** A subscriber number: ['7'] or ['1'] followed by 8 decimal digits, of any
    script. *)
Definition subscriber (b : str) : Prop :=
  exists c d, b = c :: d /\ (c = N_of_ascii "7" \/ c = N_of_ascii "1") /\
              List.length d = 8 /\ forallb Nd d = true.

(** What [(7\d{8}|1\d{8})$] lets through. *)
Definition tail_ok (b : str) : Prop :=
  exists c d e, b = c :: d ++ e /\ (c = N_of_ascii "7" \/ c = N_of_ascii "1") /\
                List.length d = 8 /\ forallb Nd d = true /\ at_end e = true.

(** The shape the pattern is written for: [254] with an optional [+] in
    front of it, or [0], then a subscriber number, and nothing else. *)
Definition kenyan_form (s : str) : Prop :=
  exists b, (s = of_string "+254" ++ b \/ s = of_string "254" ++ b \/
             s = of_string "0" ++ b) /\ subscriber b.

End Database.

End Uni.

(** ** Facts about the string primitives *)

Section StringFacts.

Lemma startswith_iff (s p : string) :
  Py.startswith s p = true <-> exists t, s = p ++ t.
Proof.
  revert s; induction p as [|c p IH]; intros s; simpl.
  - split; [intros _; now exists s | intros _; reflexivity].
  - destruct s as [|d s]; simpl.
    + split; [discriminate | intros [t Ht]; discriminate].
    + rewrite andb_true_iff, Ascii.eqb_eq, IH. split.
      * intros [-> [t ->]]. now exists t.
      * intros [t Ht]. injection Ht as -> ->. split; [reflexivity | now exists t].
Qed.

Lemma startswith_app (p t : string) : Py.startswith (p ++ t) p = true.
Proof. apply startswith_iff. now exists t. Qed.

Lemma startswith_false (s p : string) :
  Py.startswith s p = false <-> forall t, s <> p ++ t.
Proof.
  rewrite <- not_true_iff_false, startswith_iff. split.
  - intros H t E. apply H. now exists t.
  - intros H [t E]. exact (H t E).
Qed.

Lemma slice_from_app (p t : string) :
  Py.slice_from (String.length p) (p ++ t) = t.
Proof. induction p as [|c p IH]; simpl; [reflexivity | exact IH]. Qed.

Lemma length_app (a b : string) :
  String.length (a ++ b) = String.length a + String.length b.
Proof. induction a as [|c a IH]; simpl; [reflexivity | now rewrite IH]. Qed.

Lemma app_inv_head (a b c : string) : a ++ b = a ++ c -> b = c.
Proof.
  induction a as [|x a IH]; simpl; intros H; [exact H|].
  injection H as H. now apply IH.
Qed.

Lemma app_assoc (a b c : string) : (a ++ b) ++ c = a ++ (b ++ c).
Proof. induction a as [|x a IH]; simpl; [reflexivity | now rewrite IH]. Qed.

Lemma app_empty_r (a : string) : a ++ EmptyString = a.
Proof. induction a as [|x a IH]; simpl; [reflexivity | now rewrite IH]. Qed.

End StringFacts.

(** ** Facts about the matcher *)

Section MatcherFacts.

Variable k : nat -> string -> bool.

Lemma run_lit (c : ascii) (pos : nat) (s : string) :
  Re.run (Re.Lit c) pos s k = true <-> exists t, s = String c t /\ k (S pos) t = true.
Proof.
  destruct s as [|d s]; simpl.
  - split; [discriminate | intros [t [E _]]; discriminate].
  - rewrite andb_true_iff, Ascii.eqb_eq. split.
    + intros [-> H]. now exists s.
    + intros [t [E H]]. injection E as -> ->. now split.
Qed.

Lemma run_cat (r1 r2 : Re.regex) (pos : nat) (s : string) :
  Re.run (Re.Cat r1 r2) pos s k
  = Re.run r1 pos s (fun p t => Re.run r2 p t k).
Proof. reflexivity. Qed.

Lemma run_alt (r1 r2 : Re.regex) (pos : nat) (s : string) :
  Re.run (Re.Alt r1 r2) pos s k = Re.run r1 pos s k || Re.run r2 pos s k.
Proof. reflexivity. Qed.

Lemma run_opt (r : Re.regex) (pos : nat) (s : string) :
  Re.run (Re.Opt r) pos s k = Re.run r pos s k || k pos s.
Proof. reflexivity. Qed.

Lemma run_bol (s : string) : Re.run Re.Bol 0 s k = k 0 s.
Proof. reflexivity. Qed.

Lemma run_rep_S (n : nat) (r : Re.regex) (pos : nat) (s : string) :
  Re.run (Re.Rep (S n) r) pos s k
  = Re.run r pos s (fun p t => Re.run (Re.Rep n r) p t k).
Proof. reflexivity. Qed.

Lemma run_rep_digit (n : nat) (pos : nat) (s : string) :
  Re.run (Re.Rep n Re.Digit) pos s k = true <->
  exists d t, s = d ++ t /\ String.length d = n /\ all_digits d = true /\
              k (n + pos) t = true.
Proof.
  revert pos s; induction n as [|n IH]; intros pos s.
  - simpl. split.
    + intros H. exists EmptyString, s. now repeat split.
    + intros [d [t [E [L [_ H]]]]]. destruct d; [|discriminate]. now subst.
  - rewrite run_rep_S. destruct s as [|c s].
    + change (false = true <->
              exists d t, EmptyString = d ++ t /\ String.length d = S n /\
                          all_digits d = true /\ k (S n + pos) t = true).
      split; [discriminate|]. intros [d [t [E [L _]]]]. destruct d; discriminate.
    + change (Re.is_digit c && Re.run (Re.Rep n Re.Digit) (S pos) s k = true <->
              exists d t, String c s = d ++ t /\ String.length d = S n /\
                          all_digits d = true /\ k (S n + pos) t = true).
      rewrite andb_true_iff, IH. split.
      * intros [Hc [d [t [E [L [D H]]]]]]. exists (String c d), t. simpl.
        rewrite Hc, D, E, L. replace (S (n + pos)) with (n + S pos) by lia.
        now repeat split.
      * intros [d [t [E [L [D H]]]]]. destruct d as [|c' d]; [discriminate|].
        simpl in *. injection E as -> ->. apply andb_true_iff in D as [Hc D].
        split; [exact Hc|]. exists d, t. replace (n + S pos) with (S (n + pos)) by lia.
        repeat split; [lia | exact D | exact H].
Qed.

End MatcherFacts.

Section PatternFacts.

Lemma run_eol_accept (pos : nat) (s : string) :
  Re.run Re.Eol pos s accept = Re.at_end s.
Proof. simpl. unfold accept. apply andb_true_r. Qed.

Lemma run_one_branch (c : ascii) (pos : nat) (b : string) :
  Re.run (Re.Cat (Re.Lit c) (Re.Rep 8 Re.Digit)) pos b
         (fun p t => Re.run Re.Eol p t accept) = true <->
  exists d e, b = String c (d ++ e) /\ String.length d = 8 /\
              all_digits d = true /\ Re.at_end e = true.
Proof.
  rewrite run_cat, run_lit. split.
  - intros [t [-> H]]. apply run_rep_digit in H as [d [e [-> [L [D H]]]]].
    rewrite run_eol_accept in H. now exists d, e.
  - intros [d [e [-> [L [D H]]]]]. exists (d ++ e). split; [reflexivity|].
    apply run_rep_digit. exists d, e. rewrite run_eol_accept. now repeat split.
Qed.

Lemma run_subscriber (pos : nat) (b : string) :
  Re.run SUBSCRIBER pos b accept = true <-> tail_ok b.
Proof.
  unfold SUBSCRIBER. rewrite run_cat, run_alt.
  rewrite orb_true_iff, !run_one_branch. unfold tail_ok. split.
  - intros [[d [e [E H]]]|[d [e [E H]]]].
    + exists "7"%char, d, e. split; [exact E|]. split; [now left | exact H].
    + exists "1"%char, d, e. split; [exact E|]. split; [now right | exact H].
  - intros [c [d [e [E [[->| ->] H]]]]]; [left | right]; now exists d, e.
Qed.

Lemma run_254 (k : nat -> string -> bool) (pos : nat) (s : string) :
  Re.run (Re.Cat (Re.Lit "2") (Re.Cat (Re.Lit "5") (Re.Lit "4"))) pos s k = true <->
  exists b, s = "254" ++ b /\ k (S (S (S pos))) b = true.
Proof.
  rewrite run_cat, run_lit. split.
  - intros [t [-> H]]. rewrite run_cat in H. apply run_lit in H as [t' [-> H]].
    apply run_lit in H as [b [-> H]]. now exists b.
  - intros [b [-> H]]. exists ("54" ++ b). split; [reflexivity|].
    rewrite run_cat. apply run_lit. exists ("4" ++ b). split; [reflexivity|].
    apply run_lit. now exists b.
Qed.

(** The pattern, read off the matcher. *)
Lemma matches_KENYAN_MOBILE_REGEX (s : string) :
  Re.matches KENYAN_MOBILE_REGEX s = true <->
  exists b, (s = "+254" ++ b \/ s = "254" ++ b \/ s = "0" ++ b) /\ tail_ok b.
Proof.
  unfold Re.matches, KENYAN_MOBILE_REGEX.
  rewrite run_cat, run_bol, run_cat, run_alt, run_cat, run_opt.
  fold SUBSCRIBER.
  rewrite !orb_true_iff, !run_lit, run_254. split.
  - intros [[[t [-> H]]|[b [-> H]]]|[b [-> H]]].
    + apply run_254 in H as [b [-> H]]. exists b. split; [now left|].
      now apply (run_subscriber 4 b).
    + exists b. split; [now right; left|]. now apply (run_subscriber 3 b).
    + exists b. split; [now right; right|]. now apply (run_subscriber 1 b).
  - intros [b [[->|[->| ->]] H]].
    + left; left. exists ("254" ++ b). split; [reflexivity|].
      apply run_254. exists b. split; [reflexivity|]. now apply (run_subscriber 4 b).
    + left; right. exists b. split; [reflexivity|]. now apply (run_subscriber 3 b).
    + right. exists b. split; [reflexivity|]. now apply (run_subscriber 1 b).
Qed.

End PatternFacts.

(** ** Facts about the carrier validators *)

Section Carrier.

Variable prefixes : list string.
Variable carrier : string.
Hypothesis shape : table_shape prefixes = true.

Lemma prefix_ok_iff (n : string) :
  prefix_ok prefixes n = true <-> table_match prefixes n.
Proof.
  unfold prefix_ok, Py.any, table_match. rewrite existsb_exists. split.
  - intros [p [Hin Hp]]. apply startswith_iff in Hp as [t Ht].
    unfold table_shape in shape. rewrite forallb_forall in shape.
    specialize (shape p Hin). apply andb_true_iff in shape as [H0 H4].
    apply startswith_iff in H0 as [d ->]. simpl in H4, Ht.
    apply Nat.eqb_eq in H4. exists ("0" ++ d), d, t.
    repeat split; [exact Hin | congruence | exact Ht].
  - intros [p [d [t [Hin [-> [_ ->]]]]]]. exists (String "0" d). split; [exact Hin|].
    simpl. apply startswith_app.
Qed.

Lemma messages_differ (s : string) :
  s ++ " is not a valid " ++ carrier ++ " prefix."
  <> s ++ " must be 9 digits long after removing country code.".
Proof. intros E. apply app_inv_head in E. discriminate. Qed.

Lemma carrier_check_prefix (s : string) :
  s <> EmptyString ->
  (table_match prefixes (normalized_of s) ->
   carrier_check prefixes carrier (Some s)
   <> Py.Raises (s ++ " is not a valid " ++ carrier ++ " prefix.")) /\
  (~ table_match prefixes (normalized_of s) ->
   carrier_check prefixes carrier (Some s)
   = Py.Raises (s ++ " is not a valid " ++ carrier ++ " prefix.")).
Proof.
  intros Hs. destruct s as [|c v]; [congruence|]. unfold carrier_check.
  destruct (prefix_ok prefixes (normalized_of (String c v))) eqn:P; simpl negb; cbv iota.
  - split.
    + intros _. destruct (negb _); [|discriminate].
      intros E. injection E as E. symmetry in E. now apply messages_differ in E.
    + intros N. exfalso. apply N. now apply prefix_ok_iff.
  - split; [|reflexivity].
    intros M. apply prefix_ok_iff in M. congruence.
Qed.

Lemma carrier_check_length (s : string) :
  s <> EmptyString ->
  (table_match prefixes (normalized_of s) ->
   (carrier_check prefixes carrier (Some s)
    = Py.Raises (s ++ " must be 9 digits long after removing country code.")
    <-> String.length (normalized_of s) <> 9)) /\
  (carrier_check prefixes carrier (Some s)
   = Py.Raises (s ++ " must be 9 digits long after removing country code.")
   -> table_match prefixes (normalized_of s)).
Proof.
  intros Hs. destruct s as [|c v]; [congruence|]. unfold carrier_check.
  destruct (prefix_ok prefixes (normalized_of (String c v))) eqn:P; simpl negb; cbv iota.
  - split.
    + intros _. destruct (Nat.eqb_spec (String.length (normalized_of (String c v))) 9) as [E|E];
        simpl negb; cbv iota.
      * split; [discriminate | congruence].
      * split; [intros _; exact E | reflexivity].
    + intros _. now apply prefix_ok_iff.
  - split.
    + intros M. apply prefix_ok_iff in M. congruence.
    + intros E. injection E as E. now apply messages_differ in E.
Qed.

End Carrier.

Lemma safaricom_is_carrier_check (v : Py.value) :
  validate_safaricom_number v = carrier_check safaricom_prefixes "Safaricom" v.
Proof. reflexivity. Qed.

Lemma airtel_is_carrier_check (v : Py.value) :
  validate_airtel_number v = carrier_check airtel_prefixes "Airtel Kenya" v.
Proof. reflexivity. Qed.

Lemma normalized_of_cases (s : string) :
  (forall r, s = "+254" ++ r -> normalized_of s = r) /\
  (forall r, s = "254" ++ r -> normalized_of s = r) /\
  (forall r, s = "0" ++ r -> normalized_of s = r) /\
  ((forall r, s <> "+254" ++ r) -> (forall r, s <> "254" ++ r) ->
   (forall r, s <> "0" ++ r) -> normalized_of s = s).
Proof.
  unfold normalized_of. repeat split.
  - intros r ->. reflexivity.
  - intros r ->. reflexivity.
  - intros r ->. reflexivity.
  - intros A B C. apply startswith_false in A, B, C. now rewrite A, B, C.
Qed.

(** ** Facts about the generic validator *)

Lemma at_end_iff (e : string) :
  Re.at_end e = true <-> e = EmptyString \/ e = String Py.LF EmptyString.
Proof.
  destruct e as [|c [|c' e]]; simpl.
  - split; [now left | reflexivity].
  - rewrite Ascii.eqb_eq. split.
    + intros ->. now right.
    + intros [E|E]; [discriminate | now injection E].
  - split; [discriminate | intros [E|E]; discriminate].
Qed.

Lemma endswith_LF_app (a : string) : endswith_LF (a ++ String Py.LF EmptyString) = true.
Proof.
  induction a as [|c a IH]; [reflexivity|].
  destruct a as [|c' a]; [reflexivity|]. exact IH.
Qed.

Lemma endswith_LF_iff (s : string) :
  endswith_LF s = true <-> exists s0, s = s0 ++ String Py.LF EmptyString.
Proof.
  split; [|intros [s0 ->]; apply endswith_LF_app].
  induction s as [|c s IH]; [discriminate|].
  destruct s as [|c' s].
  - simpl. rewrite Ascii.eqb_eq. intros ->. now exists EmptyString.
  - intros H. destruct (IH H) as [s0 E]. exists (String c s0). simpl. now rewrite E.
Qed.

Lemma tail_ok_iff (b : string) :
  tail_ok b <-> subscriber b \/ exists b0, b = b0 ++ String Py.LF EmptyString /\ subscriber b0.
Proof.
  unfold tail_ok, subscriber. split.
  - intros [c [d [e [-> [Hc [L [D He]]]]]]]. apply at_end_iff in He as [->| ->].
    + left. exists c, d. rewrite app_empty_r. now repeat split.
    + right. exists (String c d). split; [reflexivity|]. exists c, d. now repeat split.
  - intros [[c [d [-> [Hc [L D]]]]]|[b0 [-> [c [d [-> [Hc [L D]]]]]]]].
    + exists c, d, EmptyString. rewrite app_empty_r. now repeat split.
    + exists c, d, (String Py.LF EmptyString). now repeat split.
Qed.

(** The strings the pattern lets through: those of the shape it is written
    for, and the same followed by one line feed. *)
Lemma matches_kenyan_form (s : string) :
  Re.matches KENYAN_MOBILE_REGEX s = true <->
  kenyan_form s \/ exists s0, s = s0 ++ String Py.LF EmptyString /\ kenyan_form s0.
Proof.
  rewrite matches_KENYAN_MOBILE_REGEX. unfold kenyan_form. split.
  - intros [b [Hs Hb]]. apply tail_ok_iff in Hb as [Hb|[b0 [-> Hb]]].
    + left. now exists b.
    + right. destruct Hs as [->|[->| ->]].
      * exists ("+254" ++ b0). split; [reflexivity|]. exists b0. split; [now left | exact Hb].
      * exists ("254" ++ b0). split; [reflexivity|]. exists b0.
        split; [now right; left | exact Hb].
      * exists ("0" ++ b0). split; [reflexivity|]. exists b0.
        split; [now right; right | exact Hb].
  - intros [[b [Hs Hb]]|[s0 [-> [b [Hs Hb]]]]].
    + exists b. split; [exact Hs|]. apply tail_ok_iff. now left.
    + exists (b ++ String Py.LF EmptyString). split.
      * destruct Hs as [->|[->| ->]]; [now left | now right; left | now right; right].
      * apply tail_ok_iff. right. now exists b.
Qed.

Lemma matches_kenyan_form_no_LF (s : string) :
  endswith_LF s = false ->
  (Re.matches KENYAN_MOBILE_REGEX s = true <-> kenyan_form s).
Proof.
  intros Hlf. rewrite matches_kenyan_form. split; [|now left].
  intros [H|[s0 [-> _]]]; [exact H|]. rewrite endswith_LF_app in Hlf. discriminate.
Qed.

Lemma validate_kenyan_number_outcome (s : string) :
  s <> EmptyString ->
  (validate_kenyan_number (Some s) = Py.Returns
   <-> Re.matches KENYAN_MOBILE_REGEX s = true) /\
  (Re.matches KENYAN_MOBILE_REGEX s = false ->
   validate_kenyan_number (Some s)
   = Py.Raises (s ++ " is not a valid Kenyan mobile number format.")).
Proof.
  intros Hs. destruct s as [|c v]; [congruence|]. unfold validate_kenyan_number.
  destruct (Re.matches KENYAN_MOBILE_REGEX (String c v)); simpl negb; cbv iota.
  - split; [now split | discriminate].
  - split; [split; discriminate | reflexivity].
Qed.

(** ** Facts about the normalizers *)

Lemma carrier_normalize_254 (s : string) :
  s <> EmptyString -> exists t, carrier_normalize (Some s) = Some ("254" ++ t).
Proof.
  intros Hs. destruct s as [|c v]; [congruence|]. unfold carrier_normalize.
  destruct (Py.startswith (String c v) "+254"); [eexists; reflexivity|].
  destruct (Py.startswith (String c v) "0"); [eexists; reflexivity|].
  destruct (Py.startswith (String c v) "254") eqn:E; simpl negb; cbv iota.
  - apply startswith_iff in E as [t E]. exists t. now rewrite E.
  - eexists; reflexivity.
Qed.

Lemma carrier_normalize_fixed (t : string) :
  carrier_normalize (Some ("254" ++ t)) = Some ("254" ++ t).
Proof. reflexivity. Qed.

Lemma carrier_normalize_idem (v : Py.value) :
  carrier_normalize (carrier_normalize v) = carrier_normalize v.
Proof.
  destruct v as [[|c s]|]; [reflexivity| |reflexivity].
  destruct (carrier_normalize_254 (String c s)) as [t E]; [discriminate|].
  rewrite E. apply carrier_normalize_fixed.
Qed.

Lemma carrier_normalize_cases (s : string) :
  s <> EmptyString -> follows_carrier_rule carrier_normalize s.
Proof.
  intros Hs. destruct s as [|c v]; [congruence|]. unfold follows_carrier_rule.
  repeat split.
  - intros r E. rewrite E. reflexivity.
  - intros r E. rewrite E. reflexivity.
  - intros r E. rewrite E. reflexivity.
  - intros A B C. apply startswith_false in A, B, C. unfold carrier_normalize.
    now rewrite A, B, C.
Qed.

Lemma follows_carrier_rule_ext (N M : Py.value -> Py.value) (s : string) :
  (forall v, N v = M v) -> follows_carrier_rule M s -> follows_carrier_rule N s.
Proof.
  intros E [A [B [C D]]]. unfold follows_carrier_rule. rewrite !E.
  repeat split; assumption.
Qed.

Lemma safaricom_to_python_eq (v : Py.value) :
  SafaricomPhoneField.to_python v = carrier_normalize v.
Proof. reflexivity. Qed.

Lemma airtel_to_python_eq (v : Py.value) :
  AirtelPhoneField.to_python v = carrier_normalize v.
Proof. reflexivity. Qed.

(** The statements of [get_prep_value] run on the result of [to_python],
    which they leave as it is. *)
Lemma safaricom_get_prep_value_eq (v : Py.value) :
  SafaricomPhoneField.get_prep_value v = carrier_normalize v.
Proof.
  change (carrier_normalize (carrier_normalize v) = carrier_normalize v).
  apply carrier_normalize_idem.
Qed.

Lemma airtel_get_prep_value_eq (v : Py.value) :
  AirtelPhoneField.get_prep_value v = carrier_normalize v.
Proof.
  change (carrier_normalize (carrier_normalize v) = carrier_normalize v).
  apply carrier_normalize_idem.
Qed.

Lemma kenyan_to_python_fixed (t : string) :
  KenyanPhoneField.to_python (Some ("254" ++ t)) = Some ("254" ++ t).
Proof. reflexivity. Qed.

Lemma kenyan_to_python_254 (s : string) :
  s <> EmptyString ->
  exists t, KenyanPhoneField.to_python (Some s) = Some ("254" ++ t).
Proof.
  intros Hne. destruct s as [|c v]; [congruence|].
  unfold KenyanPhoneField.to_python, CharField.to_python. cbv beta iota zeta.
  destruct (Py.startswith (String c v) "+").
  - destruct (Py.startswith (Py.slice_from 1 (String c v)) "254") eqn:E.
    + apply startswith_iff in E as [t E]. exists t. now rewrite E.
    + destruct (Py.startswith _ "0"); eexists; reflexivity.
  - destruct (Py.startswith (String c v) "254") eqn:E.
    + apply startswith_iff in E as [t E]. exists t. now rewrite E.
    + destruct (Py.startswith _ "0"); eexists; reflexivity.
Qed.

Lemma kenyan_get_prep_value_unfold (v : Py.value) :
  KenyanPhoneField.get_prep_value v = carrier_normalize (KenyanPhoneField.to_python v).
Proof. reflexivity. Qed.

Lemma kenyan_get_prep_value_eq (v : Py.value) :
  KenyanPhoneField.get_prep_value v = KenyanPhoneField.to_python v.
Proof.
  rewrite kenyan_get_prep_value_unfold.
  destruct v as [[|c w]|]; [reflexivity| |reflexivity].
  destruct (kenyan_to_python_254 (String c w)) as [t T]; [discriminate|].
  rewrite T. apply carrier_normalize_fixed.
Qed.

Lemma kenyan_to_python_no_plus (s : string) :
  Py.startswith s "+" = false ->
  KenyanPhoneField.to_python (Some s) = KenyanPhoneField.get_prep_value (Some s).
Proof. intros _. symmetry. apply kenyan_get_prep_value_eq. Qed.

(** ** Facts about the generic validator on code points *)

Section UniMatcherFacts.

Local Open Scope list_scope.

Variable Nd : N -> bool.
Variable k : nat -> Uni.str -> bool.

Lemma u_run_lit (c : ascii) (pos : nat) (s : Uni.str) :
  Uni.run Nd (Re.Lit c) pos s k = true <->
  exists t, s = N_of_ascii c :: t /\ k (S pos) t = true.
Proof.
  destruct s as [|d s]; simpl.
  - split; [discriminate | intros [t [E _]]; discriminate].
  - rewrite andb_true_iff, N.eqb_eq. split.
    + intros [-> H]. now exists s.
    + intros [t [E H]]. injection E as -> ->. now split.
Qed.

Lemma u_run_cat (r1 r2 : Re.regex) (pos : nat) (s : Uni.str) :
  Uni.run Nd (Re.Cat r1 r2) pos s k
  = Uni.run Nd r1 pos s (fun p t => Uni.run Nd r2 p t k).
Proof. reflexivity. Qed.

Lemma u_run_alt (r1 r2 : Re.regex) (pos : nat) (s : Uni.str) :
  Uni.run Nd (Re.Alt r1 r2) pos s k
  = Uni.run Nd r1 pos s k || Uni.run Nd r2 pos s k.
Proof. reflexivity. Qed.

Lemma u_run_opt (r : Re.regex) (pos : nat) (s : Uni.str) :
  Uni.run Nd (Re.Opt r) pos s k = Uni.run Nd r pos s k || k pos s.
Proof. reflexivity. Qed.

Lemma u_run_bol (s : Uni.str) : Uni.run Nd Re.Bol 0 s k = k 0 s.
Proof. reflexivity. Qed.

Lemma u_run_rep_S (n : nat) (r : Re.regex) (pos : nat) (s : Uni.str) :
  Uni.run Nd (Re.Rep (S n) r) pos s k
  = Uni.run Nd r pos s (fun p t => Uni.run Nd (Re.Rep n r) p t k).
Proof. reflexivity. Qed.

Lemma u_run_rep_digit (n : nat) (pos : nat) (s : Uni.str) :
  Uni.run Nd (Re.Rep n Re.Digit) pos s k = true <->
  exists d t, s = d ++ t /\ List.length d = n /\ forallb Nd d = true /\
              k (n + pos) t = true.
Proof.
  revert pos s; induction n as [|n IH]; intros pos s.
  - simpl. split.
    + intros H. exists [], s. now repeat split.
    + intros [d [t [E [L [_ H]]]]]. destruct d; [|discriminate]. now subst.
  - rewrite u_run_rep_S. destruct s as [|c s].
    + change (false = true <->
              exists d t, [] = d ++ t /\ List.length d = S n /\
                          forallb Nd d = true /\ k (S n + pos) t = true).
      split; [discriminate|]. intros [d [t [E [L _]]]]. destruct d; discriminate.
    + change (Nd c && Uni.run Nd (Re.Rep n Re.Digit) (S pos) s k = true <->
              exists d t, c :: s = d ++ t /\ List.length d = S n /\
                          forallb Nd d = true /\ k (S n + pos) t = true).
      rewrite andb_true_iff, IH. split.
      * intros [Hc [d [t [E [L [D H]]]]]]. exists (c :: d), t. simpl.
        rewrite Hc, D, E, L. replace (S (n + pos)) with (n + S pos) by lia.
        now repeat split.
      * intros [d [t [E [L [D H]]]]]. destruct d as [|c' d]; [discriminate|].
        simpl in *. injection E as -> ->. apply andb_true_iff in D as [Hc D].
        split; [exact Hc|]. exists d, t. replace (n + S pos) with (S (n + pos)) by lia.
        repeat split; [lia | exact D | exact H].
Qed.

End UniMatcherFacts.

Section UniPatternFacts.

Local Open Scope list_scope.

Variable Nd : N -> bool.

Lemma u_run_eol_accept (pos : nat) (s : Uni.str) :
  Uni.run Nd Re.Eol pos s Uni.accept = Uni.at_end s.
Proof. simpl. unfold Uni.accept. apply andb_true_r. Qed.

Lemma u_run_one_branch (c : ascii) (pos : nat) (b : Uni.str) :
  Uni.run Nd (Re.Cat (Re.Lit c) (Re.Rep 8 Re.Digit)) pos b
          (fun p t => Uni.run Nd Re.Eol p t Uni.accept) = true <->
  exists d e, b = N_of_ascii c :: d ++ e /\ List.length d = 8 /\
              forallb Nd d = true /\ Uni.at_end e = true.
Proof.
  rewrite u_run_cat, u_run_lit. split.
  - intros [t [-> H]]. apply u_run_rep_digit in H as [d [e [-> [L [D H]]]]].
    rewrite u_run_eol_accept in H. now exists d, e.
  - intros [d [e [-> [L [D H]]]]]. exists (d ++ e). split; [reflexivity|].
    apply u_run_rep_digit. exists d, e. rewrite u_run_eol_accept. now repeat split.
Qed.

Lemma u_run_subscriber (pos : nat) (b : Uni.str) :
  Uni.run Nd SUBSCRIBER pos b Uni.accept = true <-> Uni.tail_ok Nd b.
Proof.
  unfold SUBSCRIBER. rewrite u_run_cat, u_run_alt.
  rewrite orb_true_iff, !u_run_one_branch. unfold Uni.tail_ok. split.
  - intros [[d [e [E H]]]|[d [e [E H]]]].
    + exists (N_of_ascii "7"), d, e. split; [exact E|]. split; [now left | exact H].
    + exists (N_of_ascii "1"), d, e. split; [exact E|]. split; [now right | exact H].
  - intros [c [d [e [E [[->| ->] H]]]]]; [left | right]; now exists d, e.
Qed.

Lemma u_run_254 (k : nat -> Uni.str -> bool) (pos : nat) (s : Uni.str) :
  Uni.run Nd (Re.Cat (Re.Lit "2") (Re.Cat (Re.Lit "5") (Re.Lit "4"))) pos s k = true <->
  exists b, s = Uni.of_string "254" ++ b /\ k (S (S (S pos))) b = true.
Proof.
  rewrite u_run_cat, u_run_lit. split.
  - intros [t [-> H]]. rewrite u_run_cat in H. apply u_run_lit in H as [t' [-> H]].
    apply u_run_lit in H as [b [-> H]]. now exists b.
  - intros [b [-> H]]. exists (Uni.of_string "54" ++ b). split; [reflexivity|].
    rewrite u_run_cat. apply u_run_lit. exists (Uni.of_string "4" ++ b).
    split; [reflexivity|]. apply u_run_lit. now exists b.
Qed.

(** The pattern, read off the matcher on code points. *)
Lemma u_matches_KENYAN_MOBILE_REGEX (s : Uni.str) :
  Uni.matches Nd KENYAN_MOBILE_REGEX s = true <->
  exists b, (s = Uni.of_string "+254" ++ b \/ s = Uni.of_string "254" ++ b \/
             s = Uni.of_string "0" ++ b) /\ Uni.tail_ok Nd b.
Proof.
  unfold Uni.matches, KENYAN_MOBILE_REGEX.
  rewrite u_run_cat, u_run_bol, u_run_cat, u_run_alt, u_run_cat, u_run_opt.
  fold SUBSCRIBER.
  rewrite !orb_true_iff, !u_run_lit, u_run_254. split.
  - intros [[[t [-> H]]|[b [-> H]]]|[b [-> H]]].
    + apply u_run_254 in H as [b [-> H]]. exists b. split; [now left|].
      now apply (u_run_subscriber 4 b).
    + exists b. split; [now right; left|]. now apply (u_run_subscriber 3 b).
    + exists b. split; [now right; right|]. now apply (u_run_subscriber 1 b).
  - intros [b [[->|[->| ->]] H]].
    + left; left. exists (Uni.of_string "254" ++ b). split; [reflexivity|].
      apply u_run_254. exists b. split; [reflexivity|]. now apply (u_run_subscriber 4 b).
    + left; right. exists b. split; [reflexivity|]. now apply (u_run_subscriber 3 b).
    + right. exists b. split; [reflexivity|]. now apply (u_run_subscriber 1 b).
Qed.

Lemma u_at_end_iff (e : Uni.str) :
  Uni.at_end e = true <-> e = [] \/ e = [Uni.LF].
Proof.
  destruct e as [|c [|c' e]]; simpl.
  - split; [now left | reflexivity].
  - rewrite N.eqb_eq. split.
    + intros ->. now right.
    + intros [E|E]; [discriminate | now injection E].
  - split; [discriminate | intros [E|E]; discriminate].
Qed.

Lemma u_endswith_LF_app (a : Uni.str) : Uni.endswith_LF (a ++ [Uni.LF]) = true.
Proof.
  induction a as [|c a IH]; [reflexivity|].
  destruct a as [|c' a]; [reflexivity|]. exact IH.
Qed.

Lemma u_tail_ok_iff (b : Uni.str) :
  Uni.tail_ok Nd b <->
  Uni.subscriber Nd b \/ exists b0, b = b0 ++ [Uni.LF] /\ Uni.subscriber Nd b0.
Proof.
  unfold Uni.tail_ok, Uni.subscriber. split.
  - intros [c [d [e [-> [Hc [L [D He]]]]]]]. apply u_at_end_iff in He as [->| ->].
    + left. exists c, d. rewrite List.app_nil_r. now repeat split.
    + right. exists (c :: d). split; [reflexivity|]. exists c, d. now repeat split.
  - intros [[c [d [-> [Hc [L D]]]]]|[b0 [-> [c [d [-> [Hc [L D]]]]]]]].
    + exists c, d, []. rewrite List.app_nil_r. now repeat split.
    + exists c, d, [Uni.LF]. now repeat split.
Qed.

(** The strings the pattern lets through: those of the shape it is written
    for, and the same followed by one line feed. *)
Lemma u_matches_kenyan_form (s : Uni.str) :
  Uni.matches Nd KENYAN_MOBILE_REGEX s = true <->
  Uni.kenyan_form Nd s \/
  exists s0, s = s0 ++ [Uni.LF] /\ Uni.kenyan_form Nd s0.
Proof.
  rewrite u_matches_KENYAN_MOBILE_REGEX. unfold Uni.kenyan_form. split.
  - intros [b [Hs Hb]]. apply u_tail_ok_iff in Hb as [Hb|[b0 [-> Hb]]].
    + left. now exists b.
    + right. destruct Hs as [->|[->| ->]].
      * exists (Uni.of_string "+254" ++ b0). split; [reflexivity|]. exists b0.
        split; [now left | exact Hb].
      * exists (Uni.of_string "254" ++ b0). split; [reflexivity|]. exists b0.
        split; [now right; left | exact Hb].
      * exists (Uni.of_string "0" ++ b0). split; [reflexivity|]. exists b0.
        split; [now right; right | exact Hb].
  - intros [[b [Hs Hb]]|[s0 [-> [b [Hs Hb]]]]].
    + exists b. split; [exact Hs|]. apply u_tail_ok_iff. now left.
    + exists (b ++ [Uni.LF]). split.
      * destruct Hs as [->|[->| ->]]; [now left | now right; left | now right; right].
      * apply u_tail_ok_iff. right. now exists b.
Qed.

Lemma u_matches_kenyan_form_no_LF (s : Uni.str) :
  Uni.endswith_LF s = false ->
  (Uni.matches Nd KENYAN_MOBILE_REGEX s = true <-> Uni.kenyan_form Nd s).
Proof.
  intros Hlf. rewrite u_matches_kenyan_form. split; [|now left].
  intros [H|[s0 [-> _]]]; [exact H|]. rewrite u_endswith_LF_app in Hlf. discriminate.
Qed.

Lemma u_validate_kenyan_number_outcome (s : Uni.str) :
  s <> [] ->
  (Uni.validate_kenyan_number Nd (Some s) = Uni.Returns
   <-> Uni.matches Nd KENYAN_MOBILE_REGEX s = true) /\
  (Uni.matches Nd KENYAN_MOBILE_REGEX s = false ->
   Uni.validate_kenyan_number Nd (Some s)
   = Uni.Raises (s ++ Uni.of_string " is not a valid Kenyan mobile number format.")).
Proof.
  intros Hs. destruct s as [|c v]; [congruence|]. unfold Uni.validate_kenyan_number.
  destruct (Uni.matches Nd KENYAN_MOBILE_REGEX (c :: v)); simpl negb; cbv iota.
  - split; [now split | discriminate].
  - split; [split; discriminate | reflexivity].
Qed.

End UniPatternFacts.

(** ** The two embeddings of the generic validator agree *)

Section UniBridge.

Local Open Scope list_scope.

Variable Nd : N -> bool.

(** Below code point 256 the decimal digits are ['0'..'9']. *)
Hypothesis Nd_latin1 : forall c, (c < 256)%N -> Nd c = Uni.ascii_digit c.

Lemma of_string_app (a b : string) :
  Uni.of_string (a ++ b)%string = Uni.of_string a ++ Uni.of_string b.
Proof. induction a as [|c a IH]; simpl; [reflexivity | now rewrite IH]. Qed.

Lemma N_eqb_of_ascii (d c : ascii) :
  N.eqb (N_of_ascii d) (N_of_ascii c) = Ascii.eqb d c.
Proof.
  destruct (Ascii.eqb_spec d c) as [->|Hn]; [apply N.eqb_refl|].
  apply N.eqb_neq. intros E. apply Hn.
  rewrite <- (ascii_N_embedding d), <- (ascii_N_embedding c). now rewrite E.
Qed.

Lemma ascii_digit_of_ascii (d : ascii) :
  Uni.ascii_digit (N_of_ascii d) = Re.is_digit d.
Proof. destruct d as [[] [] [] [] [] [] [] []]; reflexivity. Qed.

Lemma at_end_of_string (s : string) :
  Uni.at_end (Uni.of_string s) = Re.at_end s.
Proof.
  destruct s as [|c [|c' s]]; [reflexivity| |reflexivity].
  exact (N_eqb_of_ascii c Py.LF).
Qed.

Lemma u_run_of_string (r : Re.regex) :
  forall (pos : nat) (s : string) (k : nat -> string -> bool)
         (k' : nat -> Uni.str -> bool),
    (forall p t, k' p (Uni.of_string t) = k p t) ->
    Uni.run Nd r pos (Uni.of_string s) k' = Re.run r pos s k.
Proof.
  induction r as [| |c| |r1 IH1 r2 IH2|r1 IH1 r2 IH2|r1 IH1|n r1 IH1];
    intros pos s k k' H.
  - simpl. now rewrite H.
  - simpl. now rewrite at_end_of_string, H.
  - destruct s as [|d s]; simpl; [reflexivity|]. now rewrite N_eqb_of_ascii, H.
  - destruct s as [|d s]; simpl; [reflexivity|].
    rewrite (Nd_latin1 _ (N_ascii_bounded d)), ascii_digit_of_ascii. now rewrite H.
  - rewrite u_run_cat, run_cat. apply IH1. intros p t. now apply IH2.
  - rewrite u_run_alt, run_alt. now rewrite (IH1 pos s k k' H), (IH2 pos s k k' H).
  - rewrite u_run_opt, run_opt. now rewrite (IH1 pos s k k' H), H.
  - revert pos s. induction n as [|n IHn]; intros pos s.
    + simpl. apply H.
    + rewrite u_run_rep_S, run_rep_S. apply IH1. intros p t. apply IHn.
Qed.

(** On a string the first embedding can hold, the validator on code points
    gives the outcome of the first embedding. *)
Lemma uni_validate_of_string (v : Py.value) :
  Uni.validate_kenyan_number Nd (option_map Uni.of_string v)
  = Uni.of_outcome (validate_kenyan_number v).
Proof.
  destruct v as [[|c w]|]; [reflexivity| |reflexivity].
  unfold Uni.validate_kenyan_number, validate_kenyan_number, option_map.
  change (Uni.of_string (String c w)) with (N_of_ascii c :: Uni.of_string w).
  cbv beta iota zeta.
  change (N_of_ascii c :: Uni.of_string w) with (Uni.of_string (String c w)).
  unfold Uni.matches, Re.matches.
  rewrite (u_run_of_string KENYAN_MOBILE_REGEX 0 (String c w)
             (fun _ _ => true) (fun _ _ => true)) by reflexivity.
  destruct (Re.run KENYAN_MOBILE_REGEX 0 (String c w) (fun _ _ => true)); simpl.
  - reflexivity.
  - f_equal. f_equal. symmetry.
    exact (of_string_app w " is not a valid Kenyan mobile number format.").
Qed.

End UniBridge.

(** ** The claims *)

(** C1 (as amended).  A non-empty string that does not end in a line feed
    passes the generic validator if and only if it is [254] with an optional
    [+] in front of it, or [0], followed by ['7'] or ['1'] and 8 decimal
    digits, with nothing before or after; a decimal digit is any character
    [\d] matches, that is a decimal digit of any script and not only
    ['0'..'9'].  A string of another shape is rejected with the format
    message.  ['0112345678'] passes; ['0212345678'] and ['+0712345678'] are
    rejected. *)
Theorem kenyan_validator_accepts_unicode_form (Nd : N -> bool) (s : Uni.str)
        (Nd_ascii : forall c, Uni.ascii_digit c = true -> Nd c = true)
        (Hne : s <> []) (Hlf : Uni.endswith_LF s = false) :
  (Uni.validate_kenyan_number Nd (Some s) = Uni.Returns <-> Uni.kenyan_form Nd s) /\
  (~ Uni.kenyan_form Nd s ->
   Uni.validate_kenyan_number Nd (Some s)
   = Uni.Raises
       (s ++ Uni.of_string " is not a valid Kenyan mobile number format.")%list) /\
  Uni.validate_kenyan_number Nd (Some (Uni.of_string "0112345678")) = Uni.Returns /\
  Uni.validate_kenyan_number Nd (Some (Uni.of_string "0212345678"))
  = Uni.Raises
      (Uni.of_string "0212345678 is not a valid Kenyan mobile number format.") /\
  Uni.validate_kenyan_number Nd (Some (Uni.of_string "+0712345678"))
  = Uni.Raises
      (Uni.of_string "+0712345678 is not a valid Kenyan mobile number format.").
Proof.
  destruct (u_validate_kenyan_number_outcome Nd s Hne) as [R F].
  pose proof (u_matches_kenyan_form_no_LF Nd s Hlf) as M.
  split; [rewrite R; exact M|].
  split; [intros N0; apply F; apply not_true_iff_false; intros T; apply N0, M, T|].
  split; [|split].
  - apply (u_validate_kenyan_number_outcome Nd); [discriminate|].
    apply u_matches_kenyan_form. left. exists (Uni.of_string "112345678").
    split; [now right; right|].
    exists (N_of_ascii "1"), (Uni.of_string "12345678").
    split; [reflexivity|]. split; [now right|]. split; [reflexivity|].
    simpl. rewrite !Nd_ascii by reflexivity. reflexivity.
  - apply (u_validate_kenyan_number_outcome Nd (Uni.of_string "0212345678"));
      [discriminate|].
    apply not_true_iff_false. intros T.
    apply u_matches_KENYAN_MOBILE_REGEX in T as [b [Hs [c [d [e [-> [Hc _]]]]]]].
    destruct Hs as [E|[E|E]]; simpl in E; destruct Hc as [->| ->]; discriminate E.
  - apply (u_validate_kenyan_number_outcome Nd (Uni.of_string "+0712345678"));
      [discriminate|].
    apply not_true_iff_false. intros T.
    apply u_matches_KENYAN_MOBILE_REGEX in T as [b [Hs [c [d [e [-> [Hc _]]]]]]].
    destruct Hs as [E|[E|E]]; simpl in E; destruct Hc as [->| ->]; discriminate E.
Qed.

Lemma kenyan_validator_accepts_unicode_form_witness :
  (forall c, Uni.ascii_digit c = true -> Uni.ascii_digit c = true) /\
  Uni.of_string "+254712345678" <> [] /\
  Uni.endswith_LF (Uni.of_string "+254712345678") = false /\
  (Uni.validate_kenyan_number Uni.ascii_digit (Some (Uni.of_string "+254712345678"))
   = Uni.Returns
   <-> Uni.kenyan_form Uni.ascii_digit (Uni.of_string "+254712345678")).
Proof.
  assert (A : forall c, Uni.ascii_digit c = true -> Uni.ascii_digit c = true)
    by (intros c H; exact H).
  assert (Hne : Uni.of_string "+254712345678" <> []) by discriminate.
  assert (Hlf : Uni.endswith_LF (Uni.of_string "+254712345678") = false)
    by reflexivity.
  split; [exact A|]. split; [exact Hne|]. split; [exact Hlf|].
  exact (proj1 (kenyan_validator_accepts_unicode_form Uni.ascii_digit
                  (Uni.of_string "+254712345678") A Hne Hlf)).
Defined.

(** C1 as the specification words it fails at ['+0712345678']: the string
    has the worded shape (a [+], then [0], then ['7'] and 8 digits) and the
    validator rejects it. *)
Lemma kenyan_validator_plus_zero_rejected :
  ~ (validate_kenyan_number (Some "+0712345678") = Py.Returns
     <-> spec_kenyan_form "+0712345678").
Proof.
  intros [_ H].
  assert (F : spec_kenyan_form "+0712345678").
  { exists "+", "0", "712345678". repeat split; [now right | now right|].
    exists "7"%char, "12345678". repeat split. now left. }
  specialize (H F). vm_compute in H. discriminate.
Qed.

(** C2 (as amended).  For the generic field the statements of [to_python]
    and the statements of [get_prep_value] differ: on a string that starts
    with [+] not followed by [254] the former drop the [+], the latter would
    keep it behind the [254] they prepend.  But [get_prep_value] runs its
    statements on what the base hook returns, and the base hook calls
    [to_python]; so [get_prep_value] returns what [to_python] returns, on
    every value. *)
Theorem kenyan_directions_coincide (r : string) (v : Py.value)
        (H : Py.startswith r "254" = false) :
  KenyanPhoneField.to_python (Some ("+" ++ r))
  = Some (if Py.startswith r "0" then "254" ++ Py.slice_from 1 r else "254" ++ r) /\
  carrier_normalize (Some ("+" ++ r)) = Some ("254+" ++ r) /\
  KenyanPhoneField.to_python (Some ("+" ++ r)) <> carrier_normalize (Some ("+" ++ r)) /\
  KenyanPhoneField.get_prep_value v = carrier_normalize (KenyanPhoneField.to_python v) /\
  KenyanPhoneField.get_prep_value v = KenyanPhoneField.to_python v.
Proof.
  assert (T : KenyanPhoneField.to_python (Some ("+" ++ r))
              = Some (if Py.startswith r "0" then "254" ++ Py.slice_from 1 r
                      else "254" ++ r)).
  { unfold KenyanPhoneField.to_python, CharField.to_python.
    change ("+" ++ r) with (String "+" r). cbv beta iota zeta.
    change (Py.startswith (String "+" r) "+") with true. cbv iota.
    change (Py.slice_from 1 (String "+" r)) with r.
    rewrite H. now destruct (Py.startswith r "0"). }
  assert (G : carrier_normalize (Some ("+" ++ r)) = Some ("254+" ++ r)).
  { unfold carrier_normalize.
    change ("+" ++ r) with (String "+" r). cbv beta iota zeta.
    change (Py.startswith (String "+" r) "+254") with (Py.startswith r "254").
    rewrite H. reflexivity. }
  split; [exact T|]. split; [exact G|].
  split; [|split; [reflexivity | apply kenyan_get_prep_value_eq]].
  rewrite T, G. destruct (Py.startswith r "0") eqn:Z;
    intros E; injection E as E; apply (f_equal String.length) in E.
  - apply startswith_iff in Z as [t ->]. simpl in E. lia.
  - simpl in E. lia.
Qed.

Lemma kenyan_directions_coincide_witness :
  Py.startswith "0712345678" "254" = false /\
  KenyanPhoneField.to_python (Some "+0712345678")
  <> carrier_normalize (Some "+0712345678") /\
  KenyanPhoneField.get_prep_value (Some "+0712345678")
  = KenyanPhoneField.to_python (Some "+0712345678").
Proof.
  assert (H : Py.startswith "0712345678" "254" = false) by reflexivity.
  destruct (kenyan_directions_coincide "0712345678" (Some "+0712345678") H)
    as [_ [_ [D [_ E]]]].
  split; [exact H|]. split; [exact D | exact E].
Defined.

(** C2 as the specification words it fails: no non-empty string is mapped
    to different strings by the two directions; in particular
    ['+0712345678'] is stored as ['254712345678'], which is also its logical
    value. *)
Lemma kenyan_directions_never_differ :
  ~ (exists s, s <> EmptyString /\
               KenyanPhoneField.to_python (Some s)
               <> KenyanPhoneField.get_prep_value (Some s)) /\
  KenyanPhoneField.get_prep_value (Some "+0712345678") = Some "254712345678" /\
  KenyanPhoneField.to_python (Some "+0712345678") = Some "254712345678".
Proof.
  split; [|split; reflexivity].
  intros [s [_ D]]. apply D. symmetry. apply kenyan_get_prep_value_eq.
Qed.

(** C3.  On a non-empty string both carrier validators work on the input
    with one leading marker removed ([+254], else [254], else [0], else
    nothing), and raise the "not a valid <carrier> prefix" error exactly when
    that value does not start with the last three characters of some
    four-character entry of the carrier's table. *)
Theorem carrier_prefix_check (s : string) (Hne : s <> EmptyString) :
  ((forall r, s = "+254" ++ r -> normalized_of s = r) /\
   (forall r, s = "254" ++ r -> normalized_of s = r) /\
   (forall r, s = "0" ++ r -> normalized_of s = r) /\
   ((forall r, s <> "+254" ++ r) -> (forall r, s <> "254" ++ r) ->
    (forall r, s <> "0" ++ r) -> normalized_of s = s)) /\
  (table_match safaricom_prefixes (normalized_of s) ->
   validate_safaricom_number (Some s)
   <> Py.Raises (s ++ " is not a valid Safaricom prefix.")) /\
  (~ table_match safaricom_prefixes (normalized_of s) ->
   validate_safaricom_number (Some s)
   = Py.Raises (s ++ " is not a valid Safaricom prefix.")) /\
  (table_match airtel_prefixes (normalized_of s) ->
   validate_airtel_number (Some s)
   <> Py.Raises (s ++ " is not a valid Airtel Kenya prefix.")) /\
  (~ table_match airtel_prefixes (normalized_of s) ->
   validate_airtel_number (Some s)
   = Py.Raises (s ++ " is not a valid Airtel Kenya prefix.")).
Proof.
  split; [apply normalized_of_cases|].
  destruct (carrier_check_prefix safaricom_prefixes "Safaricom" eq_refl s Hne) as [S1 S2].
  destruct (carrier_check_prefix airtel_prefixes "Airtel Kenya" eq_refl s Hne) as [A1 A2].
  repeat split; [exact S1 | exact S2 | exact A1 | exact A2].
Qed.

Lemma carrier_prefix_check_witness :
  "0112345678" <> EmptyString /\
  normalized_of "0112345678" = "112345678" /\
  validate_airtel_number (Some "0112345678")
  = Py.Raises "0112345678 is not a valid Airtel Kenya prefix.".
Proof.
  assert (Hne : "0112345678" <> EmptyString) by discriminate.
  destruct (carrier_prefix_check "0112345678" Hne) as [[_ [_ [Z _]]] [_ [_ [_ A]]]].
  split; [exact Hne|]. split; [apply (Z "112345678"); reflexivity|].
  apply A. intros M. apply (prefix_ok_iff airtel_prefixes eq_refl) in M. discriminate.
Defined.

(** C4.  On a non-empty string whose stripped value passes the prefix check,
    both carrier validators raise the "must be 9 digits long after removing
    country code" error exactly when the stripped value is not 9 characters
    long; and that error is raised only when the prefix check has passed. *)
Theorem carrier_length_check (s : string) (Hne : s <> EmptyString) :
  (table_match safaricom_prefixes (normalized_of s) ->
   (validate_safaricom_number (Some s)
    = Py.Raises (s ++ " must be 9 digits long after removing country code.")
    <-> String.length (normalized_of s) <> 9)) /\
  (validate_safaricom_number (Some s)
   = Py.Raises (s ++ " must be 9 digits long after removing country code.")
   -> table_match safaricom_prefixes (normalized_of s)) /\
  (table_match airtel_prefixes (normalized_of s) ->
   (validate_airtel_number (Some s)
    = Py.Raises (s ++ " must be 9 digits long after removing country code.")
    <-> String.length (normalized_of s) <> 9)) /\
  (validate_airtel_number (Some s)
   = Py.Raises (s ++ " must be 9 digits long after removing country code.")
   -> table_match airtel_prefixes (normalized_of s)).
Proof.
  destruct (carrier_check_length safaricom_prefixes "Safaricom" eq_refl s Hne) as [S1 S2].
  destruct (carrier_check_length airtel_prefixes "Airtel Kenya" eq_refl s Hne) as [A1 A2].
  repeat split; try (apply S1; assumption); try (apply A1; assumption);
    assumption.
Qed.

Lemma carrier_length_check_witness :
  "+25473312345" <> EmptyString /\
  table_match airtel_prefixes (normalized_of "+25473312345") /\
  String.length (normalized_of "+25473312345") <> 9 /\
  validate_airtel_number (Some "+25473312345")
  = Py.Raises "+25473312345 must be 9 digits long after removing country code.".
Proof.
  assert (Hne : "+25473312345" <> EmptyString) by discriminate.
  assert (M : table_match airtel_prefixes (normalized_of "+25473312345")).
  { apply (prefix_ok_iff airtel_prefixes eq_refl). reflexivity. }
  assert (L : String.length (normalized_of "+25473312345") <> 9).
  { simpl. lia. }
  destruct (carrier_length_check "+25473312345" Hne) as [_ [_ [A _]]].
  split; [exact Hne|]. split; [exact M|]. split; [exact L|].
  apply (A M). exact L.
Defined.

(** C5.  On a non-empty string the Safaricom and Airtel normalizers (both
    hooks of both fields) return [254] followed by the input without its
    first 4 characters when it starts with [+254]; else [254] followed by the
    input without its first character when it starts with [0]; else the
    input itself when it starts with [254]; else [254] followed by the whole
    input.  ['0712345678'] gives ['254712345678'], ['9999999'] gives
    ['2549999999']. *)
Theorem carrier_normalizer_rule (s : string) (Hne : s <> EmptyString) :
  follows_carrier_rule SafaricomPhoneField.to_python s /\
  follows_carrier_rule SafaricomPhoneField.get_prep_value s /\
  follows_carrier_rule AirtelPhoneField.to_python s /\
  follows_carrier_rule AirtelPhoneField.get_prep_value s /\
  SafaricomPhoneField.to_python (Some "0712345678") = Some "254712345678" /\
  AirtelPhoneField.to_python (Some "0712345678") = Some "254712345678" /\
  SafaricomPhoneField.to_python (Some "9999999") = Some "2549999999" /\
  AirtelPhoneField.to_python (Some "9999999") = Some "2549999999".
Proof.
  pose proof (carrier_normalize_cases s Hne) as R.
  split; [exact R|].
  split; [exact (follows_carrier_rule_ext _ _ s safaricom_get_prep_value_eq R)|].
  split; [exact R|].
  split; [exact (follows_carrier_rule_ext _ _ s airtel_get_prep_value_eq R)|].
  repeat split.
Qed.

Lemma carrier_normalizer_rule_witness :
  "+254733123456" <> EmptyString /\
  AirtelPhoneField.to_python (Some "+254733123456") = Some "254733123456".
Proof.
  assert (Hne : "+254733123456" <> EmptyString) by discriminate.
  split; [exact Hne|].
  destruct (carrier_normalizer_rule "+254733123456" Hne) as [_ [_ [[P _] _]]].
  apply (P "733123456"). reflexivity.
Defined.

(** C6.  For the Safaricom and Airtel fields [to_python] and
    [get_prep_value] are the same function, and that function leaves a value
    that already starts with [254] as it is: ['254712345678'] is returned
    unchanged, and so is every such value after storage and back. *)
Theorem carrier_directions_agree (v : Py.value) (r : string) :
  SafaricomPhoneField.to_python v = SafaricomPhoneField.get_prep_value v /\
  AirtelPhoneField.to_python v = AirtelPhoneField.get_prep_value v /\
  SafaricomPhoneField.to_python (Some "254712345678") = Some "254712345678" /\
  AirtelPhoneField.to_python (Some "254712345678") = Some "254712345678" /\
  SafaricomPhoneField.to_python
    (SafaricomPhoneField.get_prep_value (Some ("254" ++ r))) = Some ("254" ++ r) /\
  AirtelPhoneField.to_python
    (AirtelPhoneField.get_prep_value (Some ("254" ++ r))) = Some ("254" ++ r).
Proof.
  rewrite ?safaricom_get_prep_value_eq, ?airtel_get_prep_value_eq.
  repeat split.
Qed.

(** C7.  On an empty or absent input ([''] or [None]) the three validators
    return without raising. *)
Theorem validators_accept_blank (v : Py.value) (H : Py.truthy v = false) :
  validate_safaricom_number v = Py.Returns /\
  validate_airtel_number v = Py.Returns /\
  validate_kenyan_number v = Py.Returns.
Proof. destruct v as [[|c s]|]; [|discriminate|]; repeat split. Qed.

Lemma validators_accept_blank_witness :
  Py.truthy (Some EmptyString) = false /\
  validate_safaricom_number (Some EmptyString) = Py.Returns /\
  validate_airtel_number (Some EmptyString) = Py.Returns /\
  validate_kenyan_number (Some EmptyString) = Py.Returns.
Proof.
  split; [reflexivity|]. apply (validators_accept_blank (Some EmptyString)). reflexivity.
Defined.

Lemma kenyan_to_python_some (s : string) :
  exists r, KenyanPhoneField.to_python (Some s) = Some r.
Proof.
  destruct s as [|c v]; [now exists EmptyString|].
  unfold KenyanPhoneField.to_python, CharField.to_python. cbv zeta.
  destruct (Py.startswith _ "254"); [eexists; reflexivity|].
  destruct (Py.startswith _ "0"); eexists; reflexivity.
Qed.

Lemma carrier_normalize_some (s : string) :
  exists r, carrier_normalize (Some s) = Some r.
Proof.
  destruct s as [|c v]; [now exists EmptyString|].
  destruct (carrier_normalize_254 (String c v)) as [t E]; [discriminate|].
  now exists ("254" ++ t).
Qed.

(** C8.  Every normalizer returns a string on every string: the six hooks
    contain no raising path, and ['9999999'] comes out as ['2549999999']. *)
Theorem normalizers_total (s : string) :
  (exists r, SafaricomPhoneField.to_python (Some s) = Some r) /\
  (exists r, SafaricomPhoneField.get_prep_value (Some s) = Some r) /\
  (exists r, AirtelPhoneField.to_python (Some s) = Some r) /\
  (exists r, AirtelPhoneField.get_prep_value (Some s) = Some r) /\
  (exists r, KenyanPhoneField.to_python (Some s) = Some r) /\
  (exists r, KenyanPhoneField.get_prep_value (Some s) = Some r) /\
  SafaricomPhoneField.to_python (Some "9999999") = Some "2549999999" /\
  SafaricomPhoneField.get_prep_value (Some "9999999") = Some "2549999999" /\
  AirtelPhoneField.to_python (Some "9999999") = Some "2549999999" /\
  AirtelPhoneField.get_prep_value (Some "9999999") = Some "2549999999" /\
  KenyanPhoneField.to_python (Some "9999999") = Some "2549999999" /\
  KenyanPhoneField.get_prep_value (Some "9999999") = Some "2549999999".
Proof.
  pose proof (carrier_normalize_some s) as C.
  pose proof (kenyan_to_python_some s) as K.
  rewrite ?safaricom_get_prep_value_eq, ?airtel_get_prep_value_eq,
    ?kenyan_get_prep_value_eq.
  repeat split; try reflexivity; try exact C; exact K.
Qed.

(** C9.  On a non-empty string the result of the Safaricom and Airtel
    normalizers starts with [254]; and the normalizers are idempotent on
    every value. *)
Theorem carrier_normalizer_idempotent (s : string) (v : Py.value) :
  (s <> EmptyString ->
   (exists t, SafaricomPhoneField.to_python (Some s) = Some ("254" ++ t)) /\
   (exists t, AirtelPhoneField.to_python (Some s) = Some ("254" ++ t))) /\
  SafaricomPhoneField.to_python (SafaricomPhoneField.to_python v)
  = SafaricomPhoneField.to_python v /\
  AirtelPhoneField.to_python (AirtelPhoneField.to_python v)
  = AirtelPhoneField.to_python v.
Proof.
  split; [|split; apply carrier_normalize_idem].
  intros Hne. split; apply (carrier_normalize_254 s Hne).
Qed.

Lemma carrier_normalizer_idempotent_witness :
  "9999999" <> EmptyString /\
  exists t, SafaricomPhoneField.to_python (Some "9999999") = Some ("254" ++ t).
Proof.
  assert (Hne : "9999999" <> EmptyString) by discriminate.
  split; [exact Hne|].
  exact (proj1 (proj1 (carrier_normalizer_idempotent "9999999" None) Hne)).
Defined.

Lemma kenyan_to_python_of_form (s : string) :
  kenyan_form s ->
  exists b, KenyanPhoneField.to_python (Some s) = Some ("254" ++ b) /\
            subscriber b /\ String.length ("254" ++ b) = 12.
Proof.
  intros [b [Hs Hb]]. exists b. split; [|split; [exact Hb|]].
  - destruct Hs as [->|[->| ->]]; reflexivity.
  - destruct Hb as [c [d [-> [_ [L _]]]]]. simpl. now rewrite L.
Qed.

(** Away from the trailing line feed the validator and [to_python] fit
    together: an accepted string is normalized to [254] and 9 digits. *)
Lemma kenyan_to_python_accepted_no_LF (s : string) :
  s <> EmptyString -> endswith_LF s = false ->
  validate_kenyan_number (Some s) = Py.Returns ->
  exists b, KenyanPhoneField.to_python (Some s) = Some ("254" ++ b) /\
            subscriber b /\ String.length ("254" ++ b) = 12.
Proof.
  intros Hne Hlf V. apply kenyan_to_python_of_form.
  apply (matches_kenyan_form_no_LF s Hlf).
  now apply (validate_kenyan_number_outcome s Hne).
Qed.

(** C10 at ['0712345678\n'].  The generic validator accepts the string,
    since [$] also matches just before a final line feed, and [to_python]
    returns 13 characters, ['254712345678\n'], not [254] and 9 digits. *)
Theorem kenyan_trailing_LF_accepted :
  validate_kenyan_number (Some ("0712345678" ++ String Py.LF EmptyString)) = Py.Returns /\
  KenyanPhoneField.to_python (Some ("0712345678" ++ String Py.LF EmptyString))
  = Some ("254712345678" ++ String Py.LF EmptyString) /\
  String.length ("254712345678" ++ String Py.LF EmptyString) = 13 /\
  ~ (exists b, "254712345678" ++ String Py.LF EmptyString = "254" ++ b /\ subscriber b).
Proof.
  repeat split.
  intros [b [E [c [d [-> [_ [L _]]]]]]]. apply (f_equal String.length) in E.
  simpl in E. lia.
Qed.

(** ** Validators and normalizers together: the carrier fields *)

Lemma carrier_normalize_via_normalized (s : string) :
  s <> EmptyString ->
  carrier_normalize (Some s) = Some ("254" ++ normalized_of s).
Proof.
  intros Hne. destruct s as [|c v]; [congruence|].
  unfold carrier_normalize, normalized_of. cbv zeta.
  destruct (Py.startswith (String c v) "+254") eqn:A; [reflexivity|].
  destruct (Py.startswith (String c v) "0") eqn:Z.
  - apply startswith_iff in Z as [t Z]. rewrite Z. reflexivity.
  - destruct (Py.startswith (String c v) "254") eqn:T; simpl negb; cbv iota.
    + apply startswith_iff in T as [t T]. rewrite T. reflexivity.
    + reflexivity.
Qed.

Lemma same_length_prefix (a b n : string) :
  Py.startswith n a = true -> Py.startswith n b = true ->
  String.length a = String.length b -> a = b.
Proof.
  revert b n. induction a as [|x a IH]; intros [|y b] n Ha Hb L;
    try reflexivity; try discriminate.
  destruct n as [|z n]; [discriminate|]. simpl in Ha, Hb, L.
  apply andb_true_iff in Ha as [Hx Ha]. apply andb_true_iff in Hb as [Hy Hb].
  apply Ascii.eqb_eq in Hx, Hy. subst x y. f_equal.
  apply (IH b n Ha Hb). lia.
Qed.

Section CarrierAccept.

Variable prefixes : list string.
Variable carrier : string.
Hypothesis shape : table_shape prefixes = true.
Hypothesis heads : table_heads prefixes = true.

Lemma carrier_check_returns_iff (s : string) :
  s <> EmptyString ->
  (carrier_check prefixes carrier (Some s) = Py.Returns <->
   prefix_ok prefixes (normalized_of s) = true /\
   String.length (normalized_of s) = 9).
Proof.
  intros Hne. destruct s as [|c v]; [congruence|]. unfold carrier_check. cbv zeta.
  destruct (prefix_ok prefixes (normalized_of (String c v))); simpl negb; cbv iota.
  - destruct (Nat.eqb_spec (String.length (normalized_of (String c v))) 9) as [E|E];
      simpl negb; cbv iota.
    + split; [intros _; now split | reflexivity].
    + split; [discriminate | intros [_ L]; congruence].
  - split; [discriminate | intros [F _]; discriminate].
Qed.

Lemma table_entry_form (p : string) :
  In p prefixes ->
  exists c d, p = String "0" (String c d) /\ String.length d = 2 /\
              (c = "7"%char \/ c = "1"%char).
Proof.
  intros Hin. unfold table_shape, table_heads in *.
  rewrite forallb_forall in shape, heads.
  specialize (shape p Hin). specialize (heads p Hin).
  apply andb_true_iff in shape as [H0 H4]. apply startswith_iff in H0 as [d E].
  subst p. simpl in H4. apply Nat.eqb_eq in H4.
  destruct d as [|c d]; [discriminate|]. simpl in heads, H4.
  exists c, d. split; [reflexivity|]. split; [lia|].
  apply orb_true_iff in heads as [H|H]; apply Ascii.eqb_eq in H; auto.
Qed.

Lemma prefix_ok_entry (p t : string) :
  In p prefixes -> prefix_ok prefixes (Py.slice_from 1 p ++ t) = true.
Proof.
  intros Hin. unfold prefix_ok, Py.any. apply existsb_exists. exists p.
  split; [exact Hin | apply startswith_app].
Qed.

Lemma carrier_check_accepts_spellings (p t : string) :
  In p prefixes -> String.length t = 6 ->
  carrier_check prefixes carrier (Some ("+254" ++ Py.slice_from 1 p ++ t)) = Py.Returns /\
  carrier_check prefixes carrier (Some ("254" ++ Py.slice_from 1 p ++ t)) = Py.Returns /\
  carrier_check prefixes carrier (Some (p ++ t)) = Py.Returns /\
  carrier_check prefixes carrier (Some (Py.slice_from 1 p ++ t)) = Py.Returns.
Proof.
  intros Hin L. pose proof (prefix_ok_entry p t Hin) as P.
  destruct (table_entry_form p Hin) as [c [d [E [Ld Hc]]]]. subst p.
  change (Py.slice_from 1 (String "0" (String c d))) with (String c d) in *.
  assert (L9 : String.length (String c d ++ t) = 9).
  { rewrite length_app. simpl. lia. }
  assert (B : normalized_of (String c d ++ t) = String c d ++ t).
  { destruct Hc as [->| ->]; reflexivity. }
  repeat split; apply carrier_check_returns_iff; try discriminate.
  - change (normalized_of ("+254" ++ String c d ++ t)) with (String c d ++ t). now split.
  - change (normalized_of ("254" ++ String c d ++ t)) with (String c d ++ t). now split.
  - change (normalized_of (String "0" (String c d) ++ t)) with (String c d ++ t). now split.
  - rewrite B. now split.
Qed.

Lemma prefix_ok_leading_zero (r : string) :
  prefix_ok prefixes ("0" ++ r) = false.
Proof.
  apply not_true_iff_false. intros H. unfold prefix_ok, Py.any in H.
  apply existsb_exists in H as [p [Hin Hp]].
  destruct (table_entry_form p Hin) as [c [d [E [_ Hc]]]]. subst p.
  destruct Hc as [->| ->]; discriminate.
Qed.

Lemma carrier_check_raises_prefix (s : string) :
  s <> EmptyString ->
  prefix_ok prefixes (normalized_of s) = false ->
  carrier_check prefixes carrier (Some s)
  = Py.Raises (s ++ " is not a valid " ++ carrier ++ " prefix.").
Proof.
  intros Hne F. destruct s as [|c v]; [congruence|].
  unfold carrier_check. cbv zeta. now rewrite F.
Qed.

Lemma carrier_check_zero_after_country (r : string) :
  carrier_check prefixes carrier (Some ("+2540" ++ r))
  = Py.Raises (("+2540" ++ r) ++ " is not a valid " ++ carrier ++ " prefix.") /\
  carrier_check prefixes carrier (Some ("2540" ++ r))
  = Py.Raises (("2540" ++ r) ++ " is not a valid " ++ carrier ++ " prefix.").
Proof.
  pose proof (prefix_ok_leading_zero r) as Z.
  split; apply carrier_check_raises_prefix; try discriminate; exact Z.
Qed.

Lemma carrier_check_after_normalize (s : string) :
  s <> EmptyString ->
  (carrier_check prefixes carrier (carrier_normalize (Some s)) = Py.Returns <->
   carrier_check prefixes carrier (Some s) = Py.Returns).
Proof.
  intros Hne. rewrite (carrier_normalize_via_normalized s Hne).
  rewrite (carrier_check_returns_iff s Hne).
  rewrite (carrier_check_returns_iff ("254" ++ normalized_of s)) by discriminate.
  reflexivity.
Qed.

Lemma carrier_check_accepted_length (s : string) :
  s <> EmptyString ->
  carrier_check prefixes carrier (Some s) = Py.Returns ->
  exists out, carrier_normalize (Some s) = Some out /\ String.length out = 12.
Proof.
  intros Hne H. apply (carrier_check_returns_iff s Hne) in H as [_ L].
  exists ("254" ++ normalized_of s). split.
  - now apply carrier_normalize_via_normalized.
  - simpl. now rewrite L.
Qed.

End CarrierAccept.

Lemma tables_apart_In (ps qs : list string) (p : string) :
  tables_apart ps qs = true -> In p ps -> In p qs -> False.
Proof.
  unfold tables_apart. rewrite forallb_forall. intros A Hp Hq.
  specialize (A p Hp). apply negb_true_iff in A.
  apply not_true_iff_false in A. apply A. apply existsb_exists.
  exists p. split; [exact Hq | apply String.eqb_refl].
Qed.

Lemma prefix_ok_apart (ps qs : list string) (n : string) :
  table_shape ps = true -> table_shape qs = true -> tables_apart ps qs = true ->
  prefix_ok ps n = true -> prefix_ok qs n = true -> False.
Proof.
  intros Sp Sq A Hp Hq.
  apply (prefix_ok_iff ps Sp) in Hp as [p [d [t [Ip [Ep [Ld En]]]]]].
  apply (prefix_ok_iff qs Sq) in Hq as [q [e [u [Iq [Eq [Le En']]]]]].
  assert (d = e).
  { apply (same_length_prefix d e n).
    - rewrite En. apply startswith_app.
    - rewrite En'. apply startswith_app.
    - congruence. }
  subst e p q. exact (tables_apart_In ps qs _ A Ip Iq).
Qed.

(** ** Validators and normalizers together: the generic field *)

Lemma is_digit_not_LF (c : ascii) :
  Re.is_digit c = true -> Ascii.eqb c Py.LF = false.
Proof.
  intros D. destruct (Ascii.eqb_spec c Py.LF) as [E|E]; [|reflexivity].
  subst c. discriminate.
Qed.

Lemma endswith_LF_digits (d : string) :
  all_digits d = true -> endswith_LF d = false.
Proof.
  induction d as [|c d IH]; [reflexivity|]. simpl all_digits.
  intros H. apply andb_true_iff in H as [Dc Dd].
  destruct d as [|c' d]; [exact (is_digit_not_LF c Dc) | exact (IH Dd)].
Qed.

Lemma endswith_LF_app_nonempty (a b : string) :
  b <> EmptyString -> endswith_LF (a ++ b) = endswith_LF b.
Proof.
  intros Hb. induction a as [|x a IH]; [reflexivity|].
  simpl append. destruct (a ++ b) as [|y w] eqn:E.
  - destruct a; [simpl in E; congruence | discriminate].
  - exact IH.
Qed.

Lemma kenyan_form_no_LF (s : string) : kenyan_form s -> endswith_LF s = false.
Proof.
  intros [b [Hs [c [d [-> [_ [L D]]]]]]].
  assert (Hd : d <> EmptyString) by (intros ->; discriminate).
  assert (E : endswith_LF (String c d) = false).
  { destruct d as [|c' d]; [congruence|]. exact (endswith_LF_digits _ D). }
  destruct Hs as [->|[->| ->]];
    rewrite endswith_LF_app_nonempty by discriminate; exact E.
Qed.

Lemma kenyan_to_python_of_form_LF (s0 : string) :
  kenyan_form s0 ->
  exists b, KenyanPhoneField.to_python (Some (s0 ++ String Py.LF EmptyString))
            = Some ("254" ++ b ++ String Py.LF EmptyString) /\
            subscriber b.
Proof.
  intros [b [Hs Hb]]. exists b. split; [|exact Hb].
  destruct Hs as [->|[->| ->]]; reflexivity.
Qed.

Lemma validate_kenyan_254_subscriber (b : string) :
  subscriber b ->
  validate_kenyan_number (Some ("254" ++ b)) = Py.Returns /\
  validate_kenyan_number (Some ("254" ++ b ++ String Py.LF EmptyString)) = Py.Returns.
Proof.
  intros Hb. split.
  - apply validate_kenyan_number_outcome; [discriminate|].
    apply matches_kenyan_form. left. exists b. split; [now right; left | exact Hb].
  - apply validate_kenyan_number_outcome; [discriminate|].
    apply matches_kenyan_form. right. exists ("254" ++ b). split; [reflexivity|].
    exists b. split; [now right; left | exact Hb].
Qed.

Lemma kenyan_accepted_cases (s : string) :
  s <> EmptyString -> validate_kenyan_number (Some s) = Py.Returns ->
  kenyan_form s \/ exists s0, s = s0 ++ String Py.LF EmptyString /\ kenyan_form s0.
Proof.
  intros Hne V. apply matches_kenyan_form.
  now apply (validate_kenyan_number_outcome s Hne).
Qed.

Lemma kenyan_form_normalized (s : string) :
  kenyan_form s -> String.length (normalized_of s) = 9.
Proof.
  intros [b [Hs [c [d [-> [_ [L _]]]]]]].
  destruct Hs as [->|[->| ->]].
  - change (normalized_of ("+254" ++ String c d)) with (String c d). simpl. lia.
  - change (normalized_of ("254" ++ String c d)) with (String c d). simpl. lia.
  - change (normalized_of ("0" ++ String c d)) with (String c d). simpl. lia.
Qed.

Lemma subscriber_not_matched (b : string) :
  subscriber b ->
  Re.matches KENYAN_MOBILE_REGEX b = false /\
  Re.matches KENYAN_MOBILE_REGEX ("+0" ++ b) = false.
Proof.
  intros [c [d [-> [Hc _]]]]. split; apply not_true_iff_false; intros M;
    apply matches_KENYAN_MOBILE_REGEX in M as [b' [Hs _]];
    destruct Hs as [E|[E|E]]; destruct Hc as [->| ->]; discriminate.
Qed.

Lemma zero_after_country_not_matched (r : string) :
  Re.matches KENYAN_MOBILE_REGEX ("+2540" ++ r) = false /\
  Re.matches KENYAN_MOBILE_REGEX ("2540" ++ r) = false.
Proof.
  split; apply not_true_iff_false; intros M;
    apply matches_KENYAN_MOBILE_REGEX in M as [b [Hs [c [d [e [-> [Hc _]]]]]]];
    destruct Hs as [E|[E|E]]; destruct Hc as [->| ->]; discriminate.
Qed.

(** ** Further properties of the carrier fields *)

(** X1.  On a non-empty string the four carrier hooks return [254] followed
    by the very value the carrier validators strip the input to: validator
    and normalizer test the markers in different orders but remove the same
    one. *)
Theorem carrier_hooks_are_254_plus_stripped (s : string) (Hne : s <> EmptyString) :
  SafaricomPhoneField.to_python (Some s) = Some ("254" ++ normalized_of s) /\
  SafaricomPhoneField.get_prep_value (Some s) = Some ("254" ++ normalized_of s) /\
  AirtelPhoneField.to_python (Some s) = Some ("254" ++ normalized_of s) /\
  AirtelPhoneField.get_prep_value (Some s) = Some ("254" ++ normalized_of s).
Proof.
  pose proof (carrier_normalize_via_normalized s Hne) as E.
  rewrite ?safaricom_get_prep_value_eq, ?airtel_get_prep_value_eq.
  repeat split; exact E.
Qed.

Lemma carrier_hooks_are_254_plus_stripped_witness :
  "254712345678" <> EmptyString /\
  normalized_of "254712345678" = "712345678" /\
  SafaricomPhoneField.to_python (Some "254712345678")
  = Some ("254" ++ normalized_of "254712345678").
Proof.
  assert (Hne : "254712345678" <> EmptyString) by discriminate.
  split; [exact Hne|]. split; [reflexivity|].
  exact (proj1 (carrier_hooks_are_254_plus_stripped "254712345678" Hne)).
Defined.

(** X2.  A carrier validator returns on a non-empty string exactly when the
    stripped value starts with a table prefix and is 9 characters long. *)
Theorem carrier_validators_accept_iff (s : string) (Hne : s <> EmptyString) :
  (validate_safaricom_number (Some s) = Py.Returns <->
   table_match safaricom_prefixes (normalized_of s) /\
   String.length (normalized_of s) = 9) /\
  (validate_airtel_number (Some s) = Py.Returns <->
   table_match airtel_prefixes (normalized_of s) /\
   String.length (normalized_of s) = 9).
Proof.
  split.
  - rewrite <- (prefix_ok_iff safaricom_prefixes eq_refl).
    exact (carrier_check_returns_iff safaricom_prefixes "Safaricom" s Hne).
  - rewrite <- (prefix_ok_iff airtel_prefixes eq_refl).
    exact (carrier_check_returns_iff airtel_prefixes "Airtel Kenya" s Hne).
Qed.

Lemma carrier_validators_accept_iff_witness :
  "+254733123456" <> EmptyString /\
  validate_airtel_number (Some "+254733123456") = Py.Returns.
Proof.
  assert (Hne : "+254733123456" <> EmptyString) by discriminate.
  split; [exact Hne|].
  apply (proj2 (carrier_validators_accept_iff "+254733123456" Hne)). split.
  - apply (prefix_ok_iff airtel_prefixes eq_refl). reflexivity.
  - reflexivity.
Defined.

(** X3.  The carrier validators look at the three characters of the prefix
    and at the length only: for every table entry and every 6 characters
    after it, digits or not, the validator accepts the number written with
    [+254], with [254], with the leading [0], and with no marker at all. *)
Theorem carrier_validators_accept_any_tail (p t : string)
        (Ht : String.length t = 6) :
  (In p safaricom_prefixes ->
   validate_safaricom_number (Some ("+254" ++ Py.slice_from 1 p ++ t)) = Py.Returns /\
   validate_safaricom_number (Some ("254" ++ Py.slice_from 1 p ++ t)) = Py.Returns /\
   validate_safaricom_number (Some (p ++ t)) = Py.Returns /\
   validate_safaricom_number (Some (Py.slice_from 1 p ++ t)) = Py.Returns) /\
  (In p airtel_prefixes ->
   validate_airtel_number (Some ("+254" ++ Py.slice_from 1 p ++ t)) = Py.Returns /\
   validate_airtel_number (Some ("254" ++ Py.slice_from 1 p ++ t)) = Py.Returns /\
   validate_airtel_number (Some (p ++ t)) = Py.Returns /\
   validate_airtel_number (Some (Py.slice_from 1 p ++ t)) = Py.Returns).
Proof.
  split; intros Hin.
  - exact (carrier_check_accepts_spellings safaricom_prefixes "Safaricom"
             eq_refl eq_refl p t Hin Ht).
  - exact (carrier_check_accepts_spellings airtel_prefixes "Airtel Kenya"
             eq_refl eq_refl p t Hin Ht).
Qed.

Lemma carrier_validators_accept_any_tail_witness :
  String.length "abcdef" = 6 /\ In "0722" safaricom_prefixes /\
  validate_safaricom_number (Some "0722abcdef") = Py.Returns /\
  validate_safaricom_number (Some "722abcdef") = Py.Returns.
Proof.
  assert (Ht : String.length "abcdef" = 6) by reflexivity.
  assert (Hin : In "0722" safaricom_prefixes).
  { simpl. repeat (first [left; reflexivity | right]). }
  split; [exact Ht|]. split; [exact Hin|].
  destruct (proj1 (carrier_validators_accept_any_tail "0722" "abcdef" Ht) Hin)
    as [_ [_ [A B]]].
  split; [exact A | exact B].
Defined.

(** X4.  The two tables share no prefix, so no string is accepted by both
    carrier validators. *)
Theorem carrier_validators_exclusive (s : string) (Hne : s <> EmptyString) :
  ~ (validate_safaricom_number (Some s) = Py.Returns /\
     validate_airtel_number (Some s) = Py.Returns).
Proof.
  intros [S A].
  apply (carrier_check_returns_iff safaricom_prefixes "Safaricom" s Hne) in S as [S _].
  apply (carrier_check_returns_iff airtel_prefixes "Airtel Kenya" s Hne) in A as [A _].
  exact (prefix_ok_apart safaricom_prefixes airtel_prefixes (normalized_of s)
           eq_refl eq_refl eq_refl S A).
Qed.

Lemma carrier_validators_exclusive_witness :
  "0712345678" <> EmptyString /\
  ~ (validate_safaricom_number (Some "0712345678") = Py.Returns /\
     validate_airtel_number (Some "0712345678") = Py.Returns).
Proof.
  assert (Hne : "0712345678" <> EmptyString) by discriminate.
  split; [exact Hne | exact (carrier_validators_exclusive "0712345678" Hne)].
Defined.

(** X5.  A non-empty string a carrier validator accepts is normalized to
    exactly 12 characters, the [max_length] of the field. *)
Theorem carrier_accepted_fills_max_length (s : string) (Hne : s <> EmptyString) :
  (validate_safaricom_number (Some s) = Py.Returns ->
   exists out, SafaricomPhoneField.to_python (Some s) = Some out /\
               String.length out = SafaricomPhoneField.max_length) /\
  (validate_airtel_number (Some s) = Py.Returns ->
   exists out, AirtelPhoneField.to_python (Some s) = Some out /\
               String.length out = AirtelPhoneField.max_length).
Proof.
  split; intros V.
  - exact (carrier_check_accepted_length safaricom_prefixes "Safaricom" s Hne V).
  - exact (carrier_check_accepted_length airtel_prefixes "Airtel Kenya" s Hne V).
Qed.

Lemma carrier_accepted_fills_max_length_witness :
  "0112345678" <> EmptyString /\
  validate_safaricom_number (Some "0112345678") = Py.Returns /\
  exists out, SafaricomPhoneField.to_python (Some "0112345678") = Some out /\
              String.length out = SafaricomPhoneField.max_length.
Proof.
  assert (Hne : "0112345678" <> EmptyString) by discriminate.
  assert (V : validate_safaricom_number (Some "0112345678") = Py.Returns)
    by reflexivity.
  split; [exact Hne|]. split; [exact V|].
  exact (proj1 (carrier_accepted_fills_max_length "0112345678" Hne) V).
Defined.

(** X6.  Normalizing does not change the verdict of a carrier validator: on
    a non-empty string the validator accepts the normalized value exactly
    when it accepts the raw one. *)
Theorem carrier_verdict_survives_normalization (s : string)
        (Hne : s <> EmptyString) :
  (validate_safaricom_number (SafaricomPhoneField.to_python (Some s)) = Py.Returns
   <-> validate_safaricom_number (Some s) = Py.Returns) /\
  (validate_airtel_number (AirtelPhoneField.to_python (Some s)) = Py.Returns
   <-> validate_airtel_number (Some s) = Py.Returns).
Proof.
  split.
  - exact (carrier_check_after_normalize safaricom_prefixes "Safaricom" s Hne).
  - exact (carrier_check_after_normalize airtel_prefixes "Airtel Kenya" s Hne).
Qed.

Lemma carrier_verdict_survives_normalization_witness :
  "0733123456" <> EmptyString /\
  validate_airtel_number (AirtelPhoneField.to_python (Some "0733123456")) = Py.Returns.
Proof.
  assert (Hne : "0733123456" <> EmptyString) by discriminate.
  split; [exact Hne|].
  apply (proj2 (carrier_verdict_survives_normalization "0733123456" Hne)).
  reflexivity.
Defined.

(** X7.  A number written with the country code and the leading zero kept
    ([+2540...] or [2540...]) is rejected by all three validators, whatever
    follows: only one marker is removed, and no prefix starts with [0]. *)
Theorem zero_after_country_code_rejected (r : string) :
  validate_safaricom_number (Some ("+2540" ++ r))
  = Py.Raises (("+2540" ++ r) ++ " is not a valid Safaricom prefix.") /\
  validate_safaricom_number (Some ("2540" ++ r))
  = Py.Raises (("2540" ++ r) ++ " is not a valid Safaricom prefix.") /\
  validate_airtel_number (Some ("+2540" ++ r))
  = Py.Raises (("+2540" ++ r) ++ " is not a valid Airtel Kenya prefix.") /\
  validate_airtel_number (Some ("2540" ++ r))
  = Py.Raises (("2540" ++ r) ++ " is not a valid Airtel Kenya prefix.") /\
  validate_kenyan_number (Some ("+2540" ++ r))
  = Py.Raises (("+2540" ++ r) ++ " is not a valid Kenyan mobile number format.") /\
  validate_kenyan_number (Some ("2540" ++ r))
  = Py.Raises (("2540" ++ r) ++ " is not a valid Kenyan mobile number format.").
Proof.
  destruct (carrier_check_zero_after_country safaricom_prefixes "Safaricom"
              eq_refl eq_refl r) as [S1 S2].
  destruct (carrier_check_zero_after_country airtel_prefixes "Airtel Kenya"
              eq_refl eq_refl r) as [A1 A2].
  destruct (zero_after_country_not_matched r) as [K1 K2].
  repeat split; try assumption;
    apply validate_kenyan_number_outcome; try discriminate; assumption.
Qed.

(** ** Further properties of the generic field *)

(** X8.  The generic validator returns on a non-empty string exactly when
    the string has the shape the pattern is written for (the 8 digits being
    any characters [\d] matches), or is such a string followed by one line
    feed. *)
Theorem kenyan_validator_accepts_unicode_iff (Nd : N -> bool) (s : Uni.str)
        (Hne : s <> []) :
  Uni.validate_kenyan_number Nd (Some s) = Uni.Returns <->
  Uni.kenyan_form Nd s \/
  exists s0, s = (s0 ++ [Uni.LF])%list /\ Uni.kenyan_form Nd s0.
Proof.
  rewrite <- u_matches_kenyan_form.
  exact (proj1 (u_validate_kenyan_number_outcome Nd s Hne)).
Qed.

Lemma kenyan_validator_accepts_unicode_iff_witness :
  Uni.of_string "254112345678" <> [] /\
  Uni.validate_kenyan_number Uni.ascii_digit (Some (Uni.of_string "254112345678"))
  = Uni.Returns.
Proof.
  assert (Hne : Uni.of_string "254112345678" <> []) by discriminate.
  split; [exact Hne|].
  apply (proj2 (kenyan_validator_accepts_unicode_iff Uni.ascii_digit
                  (Uni.of_string "254112345678") Hne)).
  left. exists (Uni.of_string "112345678"). split; [now right; left|].
  exists (N_of_ascii "1"), (Uni.of_string "12345678"). repeat split. now right.
Defined.

(** The validator accepts numbers written with the decimal digits of any
    script the database knows, ['07'] and eight Arabic-Indic digits for
    one. *)
Lemma kenyan_validator_accepts_any_script (Nd : N -> bool) (d : Uni.str) :
  List.length d = 8 -> forallb Nd d = true ->
  Uni.validate_kenyan_number Nd (Some (Uni.of_string "07" ++ d)%list) = Uni.Returns.
Proof.
  intros L D. apply (u_validate_kenyan_number_outcome Nd); [discriminate|].
  apply u_matches_kenyan_form. left. exists (N_of_ascii "7" :: d).
  split; [now right; right|]. exists (N_of_ascii "7"), d.
  split; [reflexivity|]. split; [now left|]. now split.
Qed.

(** X9.  For the generic field the result of [to_python] on a non-empty
    string starts with [254]; [to_python] is idempotent; and each hook leaves
    the result of the other unchanged. *)
Theorem kenyan_hooks_compose (s : string) (v : Py.value) :
  (s <> EmptyString ->
   exists t, KenyanPhoneField.to_python (Some s) = Some ("254" ++ t)) /\
  KenyanPhoneField.to_python (KenyanPhoneField.to_python v)
  = KenyanPhoneField.to_python v /\
  KenyanPhoneField.get_prep_value (KenyanPhoneField.to_python v)
  = KenyanPhoneField.to_python v /\
  KenyanPhoneField.to_python (KenyanPhoneField.get_prep_value v)
  = KenyanPhoneField.get_prep_value v.
Proof.
  split; [exact (kenyan_to_python_254 s)|].
  assert (I : KenyanPhoneField.to_python (KenyanPhoneField.to_python v)
              = KenyanPhoneField.to_python v).
  { destruct v as [[|c w]|]; [reflexivity| |reflexivity].
    destruct (kenyan_to_python_254 (String c w)) as [t T]; [discriminate|].
    rewrite T. apply kenyan_to_python_fixed. }
  rewrite !kenyan_get_prep_value_eq. repeat split; exact I.
Qed.

Lemma kenyan_hooks_compose_witness :
  "+0712345678" <> EmptyString /\
  exists t, KenyanPhoneField.to_python (Some "+0712345678") = Some ("254" ++ t).
Proof.
  assert (Hne : "+0712345678" <> EmptyString) by discriminate.
  split; [exact Hne|].
  exact (proj1 (kenyan_hooks_compose "+0712345678" None) Hne).
Defined.

(** X10.  The two hooks of the generic field agree on every string that
    does not start with [+], and on every string that starts with [+254]. *)
Theorem kenyan_directions_agree (s : string)
        (H : Py.startswith s "+" = false \/ Py.startswith s "+254" = true) :
  KenyanPhoneField.to_python (Some s) = KenyanPhoneField.get_prep_value (Some s).
Proof. symmetry. apply kenyan_get_prep_value_eq. Qed.

Lemma kenyan_directions_agree_witness :
  KenyanPhoneField.to_python (Some "+254712345678")
  = KenyanPhoneField.get_prep_value (Some "+254712345678").
Proof.
  apply (kenyan_directions_agree "+254712345678"). right. reflexivity.
Defined.

(** X11.  What the generic validator accepts it still accepts after
    [to_python]. *)
Theorem kenyan_accepted_stays_accepted (s : string) (Hne : s <> EmptyString)
        (V : validate_kenyan_number (Some s) = Py.Returns) :
  validate_kenyan_number (KenyanPhoneField.to_python (Some s)) = Py.Returns.
Proof.
  destruct (kenyan_accepted_cases s Hne V) as [F|[s0 [-> F]]].
  - destruct (kenyan_to_python_of_form s F) as [b [-> [Hb _]]].
    exact (proj1 (validate_kenyan_254_subscriber b Hb)).
  - destruct (kenyan_to_python_of_form_LF s0 F) as [b [-> Hb]].
    exact (proj2 (validate_kenyan_254_subscriber b Hb)).
Qed.

Lemma kenyan_accepted_stays_accepted_witness :
  validate_kenyan_number (KenyanPhoneField.to_python (Some "0712345678"))
  = Py.Returns.
Proof.
  apply (kenyan_accepted_stays_accepted "0712345678");
    [discriminate | reflexivity].
Defined.

(** X12.  A non-empty string the generic validator accepts is normalized to
    12 characters, or to 13 when it ends in a line feed; either way the
    result fits the field's [max_length]. *)
Theorem kenyan_accepted_fits_max_length (s : string) (Hne : s <> EmptyString)
        (V : validate_kenyan_number (Some s) = Py.Returns) :
  exists out, KenyanPhoneField.to_python (Some s) = Some out /\
              String.length out = (if endswith_LF s then 13 else 12) /\
              String.length out <= KenyanPhoneField.max_length.
Proof.
  destruct (kenyan_accepted_cases s Hne V) as [F|[s0 [-> F]]].
  - rewrite (kenyan_form_no_LF s F).
    destruct (kenyan_to_python_of_form s F) as [b [E [_ L]]].
    exists ("254" ++ b). split; [exact E|]. split; [exact L|].
    rewrite L. unfold KenyanPhoneField.max_length. lia.
  - rewrite endswith_LF_app.
    destruct (kenyan_to_python_of_form_LF s0 F) as [b [E [c [d [-> [_ [L _]]]]]]].
    eexists. split; [exact E|].
    assert (L13 : String.length ("254" ++ String c d ++ String Py.LF EmptyString) = 13).
    { simpl. rewrite length_app, L. reflexivity. }
    split; [exact L13|]. rewrite L13. unfold KenyanPhoneField.max_length. lia.
Qed.

Lemma kenyan_accepted_fits_max_length_witness :
  exists out, KenyanPhoneField.to_python (Some "+254712345678") = Some out /\
              String.length out = (if endswith_LF "+254712345678" then 13 else 12) /\
              String.length out <= KenyanPhoneField.max_length.
Proof.
  apply (kenyan_accepted_fits_max_length "+254712345678");
    [discriminate | reflexivity].
Defined.

(** X13.  [to_python] can turn a rejected string into an accepted one: for
    every subscriber number [b] (['7'] or ['1'] and 8 digits) the validator
    rejects [b] written bare and written [+0b], and accepts what [to_python]
    makes of either, [254b]. *)
Theorem kenyan_normalization_repairs (b : string) (Hb : subscriber b) :
  validate_kenyan_number (Some b)
  = Py.Raises (b ++ " is not a valid Kenyan mobile number format.") /\
  validate_kenyan_number (Some ("+0" ++ b))
  = Py.Raises (("+0" ++ b) ++ " is not a valid Kenyan mobile number format.") /\
  KenyanPhoneField.to_python (Some b) = Some ("254" ++ b) /\
  KenyanPhoneField.to_python (Some ("+0" ++ b)) = Some ("254" ++ b) /\
  validate_kenyan_number (Some ("254" ++ b)) = Py.Returns.
Proof.
  destruct (subscriber_not_matched b Hb) as [M1 M2].
  pose proof (proj1 (validate_kenyan_254_subscriber b Hb)) as A.
  assert (Hne : b <> EmptyString).
  { destruct Hb as [c [d [-> _]]]. discriminate. }
  split; [now apply validate_kenyan_number_outcome|].
  split; [apply validate_kenyan_number_outcome; [discriminate | exact M2]|].
  split; [|split; [reflexivity | exact A]].
  destruct Hb as [c [d [-> [[->| ->] _]]]]; reflexivity.
Qed.

Lemma kenyan_normalization_repairs_witness :
  subscriber "712345678" /\
  validate_kenyan_number (Some "712345678")
  = Py.Raises "712345678 is not a valid Kenyan mobile number format." /\
  validate_kenyan_number (KenyanPhoneField.to_python (Some "712345678"))
  = Py.Returns.
Proof.
  assert (Hb : subscriber "712345678").
  { exists "7"%char, "12345678". repeat split. now left. }
  destruct (kenyan_normalization_repairs "712345678" Hb) as [R [_ [_ [_ A]]]].
  split; [exact Hb|]. split; [exact R | exact A].
Defined.

(** X14.  On a string of the generic shape the carrier validators never
    raise the length error: the stripped value is 9 characters long, so a
    carrier validator accepts exactly when the prefix is in its table. *)
Theorem kenyan_form_carrier_verdict (s : string) (F : kenyan_form s) :
  String.length (normalized_of s) = 9 /\
  (validate_safaricom_number (Some s) = Py.Returns <->
   table_match safaricom_prefixes (normalized_of s)) /\
  (validate_airtel_number (Some s) = Py.Returns <->
   table_match airtel_prefixes (normalized_of s)).
Proof.
  pose proof (kenyan_form_normalized s F) as L.
  assert (Hne : s <> EmptyString).
  { destruct F as [b [[->|[->| ->]] _]]; discriminate. }
  split; [exact L|]. split.
  - rewrite <- (prefix_ok_iff safaricom_prefixes eq_refl).
    rewrite (carrier_check_returns_iff safaricom_prefixes "Safaricom" s Hne).
    split; [now intros [P _] | now intros P].
  - rewrite <- (prefix_ok_iff airtel_prefixes eq_refl).
    rewrite (carrier_check_returns_iff airtel_prefixes "Airtel Kenya" s Hne).
    split; [now intros [P _] | now intros P].
Qed.

Lemma kenyan_form_carrier_verdict_witness :
  kenyan_form "0744123456" /\
  String.length (normalized_of "0744123456") = 9 /\
  ~ table_match safaricom_prefixes (normalized_of "0744123456") /\
  validate_safaricom_number (Some "0744123456") <> Py.Returns.
Proof.
  assert (F : kenyan_form "0744123456").
  { exists "744123456". split; [now right; right|].
    exists "7"%char, "44123456". repeat split. now left. }
  destruct (kenyan_form_carrier_verdict "0744123456" F) as [L [S _]].
  assert (N : ~ table_match safaricom_prefixes (normalized_of "0744123456")).
  { intros M. apply (prefix_ok_iff safaricom_prefixes eq_refl) in M. discriminate. }
  split; [exact F|]. split; [exact L|]. split; [exact N|].
  intros V. apply N, S, V.
Defined.
